(** * Chat catch-up of the Chime plugin (chat.c): history/live reconciliation

    A shallow embedding of [chat.c]: the per-chat [messages] table that
    buffers history records and live events while the history is fetched,
    the sorted drain of [chime_complete_chat_setup], the watermark kept in
    the account strings, and join / leave.

    Conventions.
    - A C pointer to a [struct chime_chat] is an address into the [chats]
      heap of the connection; [g_free] removes the address, and reading
      through a missing address is a fault ([None]).
    - A [struct chime_room *] is the room's key in [rooms_by_id] (rooms are
      never freed by this file).
    - The [messages] table is a finite map by the content of the id.  Its
      keys are not copied and point into the stored nodes, so two ghost
      fields of the connection record the ids whose stored key points into
      a freed node and whether an insert has compared such a key; what is
      proved of a table after arrivals holds as long as none has.
    - [printf] output is not modelled.
    - Library calls (GLib, json-glib, libsoup, libpurple) are modelled by
      their documented contract, next to the definition that stands for
      them. *)

From stdpp Require Import base option list gmap strings sorting.
From Stdlib Require Import ZArith Lia.

Set Warnings "-register-all".
Open Scope Z_scope.

(** ** JSON nodes (json-glib) *)

(** A decoded node; an object lists its members, one per name. *)

Inductive JsonNode :=
| JNull
| JBool (b : bool)
| JInt (n : Z)
| JString (s : string)
| JArray (elems : list JsonNode)
| JObject (members : list (string * JsonNode)).

(** [json_object_get_member]: the member of that name, if any. *)
Fixpoint assoc_member (name : string) (ms : list (string * JsonNode)) : option JsonNode :=
  match ms with
  | [] => None
  | (k, v) :: rest => if String.eqb name k then Some v else assoc_member name rest
  end.

(** [json_node_get_object] followed by [json_object_get_member]: a node that
    is not an object has no members. *)
Definition json_get_member (node : JsonNode) (name : string) : option JsonNode :=
  match node with
  | JObject ms => assoc_member name ms
  | _ => None
  end.

(** Modelled from the spec: [parse_string] is declared in chime.h and defined
    outside chat.c.  The core "treats decoded records as opaque fields
    (message id, body, creation time)": [parse_string node name] yields the
    string held by member [name] of the object [node], and fails when the
    member is absent or is not a string. *)
Definition parse_string (node : JsonNode) (name : string) : option string :=
  match json_get_member node name with
  | Some (JString s) => Some s
  | _ => None
  end.

(** [json_node_get_array] on the member, and the elements that
    [json_array_foreach_element] visits, in order; no array, no visit. *)
Definition json_array_elements (node : option JsonNode) : list JsonNode :=
  match node with
  | Some (JArray l) => l
  | _ => []
  end.

(** ** Time values *)

(** [GTimeVal]: seconds and microseconds, both [glong]. *)
Record GTimeVal := { tv_sec : Z; tv_usec : Z }.

(** Conversion to a C [int] (32 bits, two's complement). *)
Definition to_int (z : Z) : Z := (z + 2 ^ 31) mod 2 ^ 32 - 2 ^ 31.

(** ** GHashTable keyed by strings *)

(** [g_hash_table_insert]: "if the key already exists in the GHashTable its
    current value is replaced with the new value" (the stored key is kept);
    on a NULL table the call returns at once.  The table goes by the content
    of the key string, as [g_str_equal] does while the stored key can be
    read; the inserts that meet a stored key that cannot are recorded by
    [note_insert] below. *)
Definition g_hash_table_insert {V} (table : option (gmap string V)) (key : string) (value : V)
  : option (gmap string V) :=
  match table with
  | Some t => Some (<[key := value]> t)
  | None => None
  end.

(** ** The list of [struct msg_sort] *)

Record msg_sort := { tm : GTimeVal; node : JsonNode }.

(** [compare_ms]: 1 when [a] is strictly later than [b], else 0. *)
Definition compare_ms (a b : msg_sort) : Z :=
  if tv_sec (tm a) >? tv_sec (tm b) then 1
  else if (tv_sec (tm a) =? tv_sec (tm b)) && (tv_usec (tm a) >? tv_usec (tm b)) then 1
  else 0.

(** [g_list_insert_sorted]: walk while [func data elem > 0], and put [data]
    before the first element where it is not (or at the end). *)
Fixpoint g_list_insert_sorted (l : list msg_sort) (data : msg_sort)
    (func : msg_sort -> msg_sort -> Z) : list msg_sort :=
  match l with
  | [] => [data]
  | x :: rest =>
      if func data x >? 0 then x :: g_list_insert_sorted rest data func
      else data :: x :: rest
  end.

(** ** Connection, rooms and chats *)

(** [struct chime_room] (chime.h), the fields chat.c reads: the id string,
    the address at which that string lives (line 98 casts the pointer
    itself), the live-feed channel, and the chat of the room, if any. *)
Record chime_room := {
  room_id : string;
  room_id_addr : Z;
  room_channel : string;
  room_chat : option Z
}.

(** The [PurpleConversation] returned by [serv_got_joined_chat]. *)
Record PurpleConversation := { conv_chat_id : Z; conv_name : option string }.

(** [struct chime_chat]; the fields carry a [c_] prefix.  [c_room] is the
    key of the room in [rooms_by_id]. *)
Record chime_chat := {
  c_room : string;
  c_conv : PurpleConversation;
  c_msgs_msg : option Z;
  c_members_msg : option Z;
  c_got_members : bool;
  c_got_msgs : bool;
  c_messages : option (gmap string JsonNode);
  c_members : option (gmap string JsonNode)
}.

(** The callback data handed to the live feed: line 254 passes the chat,
    line 95 the room. *)
Inductive gpointer :=
| ChatData (chat : Z)
| RoomData (room : string).

Global Instance gpointer_eq_dec : EqDecision gpointer.
Proof. solve_decision. Defined.

(** The only live-feed callback of this file is [chat_msg_cb]. *)
Inductive JuggernautCallback := chat_msg_cb_ptr.

Global Instance JuggernautCallback_eq_dec : EqDecision JuggernautCallback.
Proof. solve_decision. Defined.

Record jugg_subscription := {
  sub_channel : string;
  sub_cb : JuggernautCallback;
  sub_cb_data : gpointer
}.

Global Instance jugg_subscription_eq_dec : EqDecision jugg_subscription.
Proof. solve_decision. Defined.

(** A queued history request; its callback is always [fetch_msgs_cb]. *)
Record http_request := {
  req_path : string;
  req_query : list (string * string);
  req_cb_data : Z
}.

(** Calls into libpurple's conversation API, in order.  [in_src] of
    [serv_got_chat_in] is ghost: the JSON node whose Content is shown. *)
Inductive purple_call :=
| serv_got_joined_chat (id : Z) (name : option string)
| serv_got_chat_in (id : Z) (who : string) (message : string) (mtime : Z) (in_src : JsonNode)
| serv_got_chat_left (id : Z).

(** [struct chime_connection] together with what it reaches: the account
    strings of libpurple, the queue of the HTTP session, the live-feed
    subscriptions, the heap of chats and the allocation counters.

    The last two fields are ghost.  The messages table is created without
    key copy (line 253: no key destructor, [json_node_unref] for values) and
    the key handed to it points into the node stored with it (lines 74 and
    184).  A later insert under the same id keeps that key and unrefs that
    node, so the key the table holds then points into a node that no longer
    belongs to the table.  [dangling_keys] holds, per chat, the ids whose
    stored key points into a freed node; [dangling_key_read] is set once an
    insert has met such a key.  From then on C does not define the
    table, and the tables of this file, which go by the content of the id,
    say nothing of it. *)
Record chime_connection := {
  rooms_by_id : gmap string chime_room;
  live_chats : gmap Z Z;
  chat_id : Z;
  subscriptions : list jugg_subscription;
  soup_queue : gmap Z http_request;
  next_soup : Z;
  account_strings : gmap string string;
  chats : gmap Z chime_chat;
  next_chat : Z;
  purple_log : list purple_call;
  dangling_keys : gset (Z * string);
  dangling_key_read : bool
}.

Definition set_rooms_by_id (f : gmap string chime_room -> gmap string chime_room)
    (x : chime_connection) : chime_connection :=
  {| rooms_by_id := f (rooms_by_id x); live_chats := live_chats x; chat_id := chat_id x;
     subscriptions := subscriptions x; soup_queue := soup_queue x; next_soup := next_soup x;
     account_strings := account_strings x; chats := chats x; next_chat := next_chat x;
     purple_log := purple_log x;
     dangling_keys := dangling_keys x; dangling_key_read := dangling_key_read x |}.

Definition set_live_chats (f : gmap Z Z -> gmap Z Z) (x : chime_connection) : chime_connection :=
  {| rooms_by_id := rooms_by_id x; live_chats := f (live_chats x); chat_id := chat_id x;
     subscriptions := subscriptions x; soup_queue := soup_queue x; next_soup := next_soup x;
     account_strings := account_strings x; chats := chats x; next_chat := next_chat x;
     purple_log := purple_log x;
     dangling_keys := dangling_keys x; dangling_key_read := dangling_key_read x |}.

Definition set_chat_id (n : Z) (x : chime_connection) : chime_connection :=
  {| rooms_by_id := rooms_by_id x; live_chats := live_chats x; chat_id := n;
     subscriptions := subscriptions x; soup_queue := soup_queue x; next_soup := next_soup x;
     account_strings := account_strings x; chats := chats x; next_chat := next_chat x;
     purple_log := purple_log x;
     dangling_keys := dangling_keys x; dangling_key_read := dangling_key_read x |}.

Definition set_subscriptions (f : list jugg_subscription -> list jugg_subscription)
    (x : chime_connection) : chime_connection :=
  {| rooms_by_id := rooms_by_id x; live_chats := live_chats x; chat_id := chat_id x;
     subscriptions := f (subscriptions x); soup_queue := soup_queue x; next_soup := next_soup x;
     account_strings := account_strings x; chats := chats x; next_chat := next_chat x;
     purple_log := purple_log x;
     dangling_keys := dangling_keys x; dangling_key_read := dangling_key_read x |}.

Definition set_soup_queue (f : gmap Z http_request -> gmap Z http_request)
    (x : chime_connection) : chime_connection :=
  {| rooms_by_id := rooms_by_id x; live_chats := live_chats x; chat_id := chat_id x;
     subscriptions := subscriptions x; soup_queue := f (soup_queue x); next_soup := next_soup x;
     account_strings := account_strings x; chats := chats x; next_chat := next_chat x;
     purple_log := purple_log x;
     dangling_keys := dangling_keys x; dangling_key_read := dangling_key_read x |}.

Definition set_next_soup (n : Z) (x : chime_connection) : chime_connection :=
  {| rooms_by_id := rooms_by_id x; live_chats := live_chats x; chat_id := chat_id x;
     subscriptions := subscriptions x; soup_queue := soup_queue x; next_soup := n;
     account_strings := account_strings x; chats := chats x; next_chat := next_chat x;
     purple_log := purple_log x;
     dangling_keys := dangling_keys x; dangling_key_read := dangling_key_read x |}.

Definition set_account_strings (f : gmap string string -> gmap string string)
    (x : chime_connection) : chime_connection :=
  {| rooms_by_id := rooms_by_id x; live_chats := live_chats x; chat_id := chat_id x;
     subscriptions := subscriptions x; soup_queue := soup_queue x; next_soup := next_soup x;
     account_strings := f (account_strings x); chats := chats x; next_chat := next_chat x;
     purple_log := purple_log x;
     dangling_keys := dangling_keys x; dangling_key_read := dangling_key_read x |}.

Definition set_chats (f : gmap Z chime_chat -> gmap Z chime_chat)
    (x : chime_connection) : chime_connection :=
  {| rooms_by_id := rooms_by_id x; live_chats := live_chats x; chat_id := chat_id x;
     subscriptions := subscriptions x; soup_queue := soup_queue x; next_soup := next_soup x;
     account_strings := account_strings x; chats := f (chats x); next_chat := next_chat x;
     purple_log := purple_log x;
     dangling_keys := dangling_keys x; dangling_key_read := dangling_key_read x |}.

Definition set_next_chat (n : Z) (x : chime_connection) : chime_connection :=
  {| rooms_by_id := rooms_by_id x; live_chats := live_chats x; chat_id := chat_id x;
     subscriptions := subscriptions x; soup_queue := soup_queue x; next_soup := next_soup x;
     account_strings := account_strings x; chats := chats x; next_chat := n;
     purple_log := purple_log x;
     dangling_keys := dangling_keys x; dangling_key_read := dangling_key_read x |}.

Definition set_purple_log (f : list purple_call -> list purple_call)
    (x : chime_connection) : chime_connection :=
  {| rooms_by_id := rooms_by_id x; live_chats := live_chats x; chat_id := chat_id x;
     subscriptions := subscriptions x; soup_queue := soup_queue x; next_soup := next_soup x;
     account_strings := account_strings x; chats := chats x; next_chat := next_chat x;
     purple_log := f (purple_log x);
     dangling_keys := dangling_keys x; dangling_key_read := dangling_key_read x |}.

Definition set_dangling_keys (f : gset (Z * string) -> gset (Z * string))
    (x : chime_connection) : chime_connection :=
  {| rooms_by_id := rooms_by_id x; live_chats := live_chats x; chat_id := chat_id x;
     subscriptions := subscriptions x; soup_queue := soup_queue x; next_soup := next_soup x;
     account_strings := account_strings x; chats := chats x; next_chat := next_chat x;
     purple_log := purple_log x;
     dangling_keys := f (dangling_keys x); dangling_key_read := dangling_key_read x |}.

Definition set_dangling_key_read (b : bool) (x : chime_connection) : chime_connection :=
  {| rooms_by_id := rooms_by_id x; live_chats := live_chats x; chat_id := chat_id x;
     subscriptions := subscriptions x; soup_queue := soup_queue x; next_soup := next_soup x;
     account_strings := account_strings x; chats := chats x; next_chat := next_chat x;
     purple_log := purple_log x;
     dangling_keys := dangling_keys x; dangling_key_read := b |}.

Definition set_c_msgs_msg (m : option Z) (c : chime_chat) : chime_chat :=
  {| c_room := c_room c; c_conv := c_conv c; c_msgs_msg := m; c_members_msg := c_members_msg c;
     c_got_members := c_got_members c; c_got_msgs := c_got_msgs c;
     c_messages := c_messages c; c_members := c_members c |}.

Definition set_c_members_msg (m : option Z) (c : chime_chat) : chime_chat :=
  {| c_room := c_room c; c_conv := c_conv c; c_msgs_msg := c_msgs_msg c; c_members_msg := m;
     c_got_members := c_got_members c; c_got_msgs := c_got_msgs c;
     c_messages := c_messages c; c_members := c_members c |}.

Definition set_c_messages (t : option (gmap string JsonNode)) (c : chime_chat) : chime_chat :=
  {| c_room := c_room c; c_conv := c_conv c; c_msgs_msg := c_msgs_msg c;
     c_members_msg := c_members_msg c;
     c_got_members := c_got_members c; c_got_msgs := c_got_msgs c;
     c_messages := t; c_members := c_members c |}.

Definition set_room_chat (p : option Z) (r : chime_room) : chime_room :=
  {| room_id := room_id r; room_id_addr := room_id_addr r;
     room_channel := room_channel r; room_chat := p |}.

(** [GUINT_TO_POINTER(u)] is [(gpointer) (gulong) (u)] where a long has 64
    bits: an int is sign-extended, a pointer keeps all its bits. *)
Definition GUINT_TO_POINTER (z : Z) : Z := z mod 2 ^ 64.

(** The account key of the watermark: [g_strdup_printf("last-room-%s", id)]. *)
Definition last_msgs_key (id : string) : string := "last-room-" +:+ id.

(** ** The keys of the messages table (ghost) *)

(** What one callback does to the keys of the table of [chat].  A node lives
    as long as the table holds it or the page (the event) it came with is
    being handled.  [kg_fresh]: the ids first stored by this callback, whose
    key points into a node of this page; [kg_pending]: those of them whose
    node was replaced since, so that the key dangles once the callback has
    returned; [kg_dangling] and [kg_read] as in the connection. *)
Record key_ghost := {
  kg_fresh : gset string;
  kg_pending : gset string;
  kg_dangling : gset (Z * string);
  kg_read : bool
}.

(** [g_str_hash] (GLib), the hash function of the table (line 253): "the
    32 bit unsigned hash value starts at 5381 and for each byte c in the
    string is updated: hash = hash * 33 + c", with the signed value of each
    byte.  A GHashTable keeps 0 and 1 for the slots without entry and
    stores such a hash as 2. *)
Definition g_str_hash (s : string) : Z :=
  foldl (λ h c, let b := Z.of_N (Ascii.N_of_ascii c) in
                (h * 33 + (if b <? 128 then b else b - 256)) mod 2 ^ 32)
        5381 (String.list_ascii_of_string s).

Definition stored_hash (s : string) : Z :=
  if g_str_hash s <? 2 then 2 else g_str_hash s.

(** The lookup of an insert calls [g_str_equal] on the stored keys of the
    hash of its id that it meets: a dangling key of that hash may be read. *)
Definition meets_dangling_key (chat : Z) (id : string) (d : gset (Z * string)) : bool :=
  bool_decide (set_Exists (λ ck, ck.1 = chat ∧ stored_hash ck.2 = stored_hash id) d).

(** One [g_hash_table_insert] of [id] into the table [t] of [chat]: a key
    that dangles may be compared; a key of an earlier callback is that of
    the stored node, which is freed by the replace; a key of this callback
    outlives the replace until the callback returns; a new id is stored
    with a key of this callback. *)
Definition note_insert (chat : Z) (t : gmap string JsonNode) (id : string) (g : key_ghost)
    : key_ghost :=
  if meets_dangling_key chat id (kg_dangling g) then
    {| kg_fresh := kg_fresh g; kg_pending := kg_pending g;
       kg_dangling := kg_dangling g; kg_read := true |}
  else
    match t !! id with
    | Some _ =>
        if bool_decide (id ∈ kg_fresh g) then
          {| kg_fresh := kg_fresh g; kg_pending := kg_pending g ∪ {[id]};
             kg_dangling := kg_dangling g; kg_read := kg_read g |}
        else
          {| kg_fresh := kg_fresh g; kg_pending := kg_pending g;
             kg_dangling := kg_dangling g ∪ {[(chat, id)]}; kg_read := kg_read g |}
    | None =>
        {| kg_fresh := kg_fresh g ∪ {[id]}; kg_pending := kg_pending g;
           kg_dangling := kg_dangling g; kg_read := kg_read g |}
    end.

Definition callback_start (cxn : chime_connection) : key_ghost :=
  {| kg_fresh := ∅; kg_pending := ∅;
     kg_dangling := dangling_keys cxn; kg_read := dangling_key_read cxn |}.

(** The callback returns: the nodes of its page that the table does not
    hold are freed. *)
Definition callback_end (chat : Z) (g : key_ghost) (cxn : chime_connection)
    : chime_connection :=
  set_dangling_key_read (kg_read g)
    (set_dangling_keys (λ _, kg_dangling g ∪ set_map (λ id, (chat, id)) (kg_pending g)) cxn).

(** The inserts of [json_array_foreach_element] with [one_msg_cb], line 199,
    record by record; the table goes with them as [one_msg_cb] makes it. *)
Fixpoint note_page (chat : Z) (t : gmap string JsonNode) (records : list JsonNode)
    (g : key_ghost) : key_ghost :=
  match records with
  | [] => g
  | record :: rest =>
      match parse_string record "MessageId" with
      | Some id => note_page chat (<[id := record]> t) rest (note_insert chat t id g)
      | None => note_page chat t rest g
      end
  end.

(** ** Collaborators outside chat.c *)

(** Modelled from the spec: [chime_jugg_subscribe] and
    [chime_jugg_unsubscribe] are declared in chime.h and defined outside
    chat.c.  The spec gives "subscribe(topic, callback)" and
    "unsubscribe(topic, callback)"; in C the callback is the pair (function,
    callback data) that both call sites pass, so a subscription is the
    triple and unsubscribing removes the subscriptions equal to it. *)
Definition chime_jugg_subscribe (channel : string) (cb : JuggernautCallback) (cb_data : gpointer)
    (subs : list jugg_subscription) : list jugg_subscription :=
  subs ++ [{| sub_channel := channel; sub_cb := cb; sub_cb_data := cb_data |}].

Definition chime_jugg_unsubscribe (channel : string) (cb : JuggernautCallback) (cb_data : gpointer)
    (subs : list jugg_subscription) : list jugg_subscription :=
  filter (λ s, s ≠ {| sub_channel := channel; sub_cb := cb; sub_cb_data := cb_data |}) subs.

(** Modelled from the spec: [chime_queue_http_request] (chime.h) hands the
    request to the HTTP session and returns its handle; the transport is
    "issue paginated GET, receive JSON page + next-page token, can be
    cancelled". *)
Definition chime_queue_http_request (req : http_request) (cxn : chime_connection)
    : Z * chime_connection :=
  let h := next_soup cxn in
  (h, set_next_soup (h + 1) (set_soup_queue (insert h req) cxn)).

(** Modelled from the spec: cancelling "must abort the outstanding network
    call and suppress delivery of its callback": the request leaves the
    queue and is never answered. *)
Definition soup_session_cancel_message (msg : Z) (cxn : chime_connection) : chime_connection :=
  set_soup_queue (delete msg) cxn.

(** [purple_account_get_string] with default NULL, and
    [purple_account_set_string]. *)
Definition purple_account_get_string (cxn : chime_connection) (key : string) : option string :=
  account_strings cxn !! key.

Definition purple_account_set_string (key value : string) (cxn : chime_connection)
    : chime_connection :=
  set_account_strings (insert key value) cxn.

(** ** chat.c *)

Section ChatC.

(** [g_time_val_from_iso8601] (GLib): the time value of an ISO 8601 string,
    or failure. *)
Variable g_time_val_from_iso8601 : string -> option GTimeVal.

(** The order in which [g_hash_table_foreach_remove] visits the pairs of a
    table; GLib leaves it unspecified. *)
Variable g_hash_table_order : gmap string JsonNode -> list (string * JsonNode).

(** Lines 41-59.  [now] is the reading of [time(NULL)]. *)
Definition chat_deliver_msg (now : Z) (chat : chime_chat) (node : JsonNode) (msg_time : Z)
    (cxn : chime_connection) : chime_connection :=
  let msg_time :=
    if msg_time =? 0 then
      match parse_string node "CreatedOn" with
      | Some str =>
          match g_time_val_from_iso8601 str with
          | Some tv => to_int (tv_sec tv)
          | None => to_int now
          end
      | None => to_int now
      end
    else msg_time in
  match parse_string node "Content" with
  | Some str =>
      let id := conv_chat_id (c_conv chat) in
      set_purple_log (λ log, log ++ [serv_got_chat_in id "someone" str msg_time node]) cxn
  | None => cxn
  end.

(** Lines 60-78.  The table entry holds [node], the whole event; the ghost
    notes what the insert does to the key. *)
Definition chat_msg_cb (now : Z) (_chat : Z) (node : JsonNode) (cxn : chime_connection)
    : option chime_connection :=
  match json_get_member node "record" with
  | None => Some cxn
  | Some record =>
      chat ← chats cxn !! _chat;
      match c_messages chat with
      | Some t =>
          match parse_string record "MessageId" with
          | Some id =>
              let cxn := callback_end _chat (note_insert _chat t id (callback_start cxn)) cxn in
              Some (set_chats
                      (insert _chat (set_c_messages (g_hash_table_insert (Some t) id node) chat))
                      cxn)
          | None => Some cxn
          end
      | None => Some (chat_deliver_msg now chat record (to_int now) cxn)
      end
  end.

(** Lines 129-145: the list after the visit of one pair (the visit always
    answers TRUE, so every pair is removed from the table). *)
Definition insert_queued_msg (_id : string) (_node : JsonNode) (l : list msg_sort)
    : list msg_sort :=
  match parse_string _node "CreatedOn" with
  | Some str =>
      match g_time_val_from_iso8601 str with
      | Some tv => g_list_insert_sorted l {| tm := tv; node := _node |} compare_ms
      | None => l
      end
  | None => l
  end.

(** Line 152: [g_hash_table_foreach_remove] over the table, building the
    sorted list; on a NULL table nothing is visited. *)
Definition queued_msgs (table : option (gmap string JsonNode)) : list msg_sort :=
  match table with
  | Some t => foldl (λ l kv, insert_queued_msg kv.1 kv.2 l) [] (g_hash_table_order t)
  | None => []
  end.

(** Lines 156-174, the deliveries of the loop. *)
Definition deliver_queued (now : Z) (chat : chime_chat) (l : list msg_sort)
    (cxn : chime_connection) : chime_connection :=
  foldl (λ cxn ms, chat_deliver_msg now chat (node ms) (to_int (tv_sec (tm ms))) cxn) cxn l.

(** Lines 163-172, run in the last turn of the loop. *)
Definition note_last_msg (chat : chime_chat) (l : list msg_sort) (cxn : chime_connection)
    : option chime_connection :=
  match last l with
  | None => Some cxn
  | Some ms =>
      match parse_string (node ms) "CreatedOn" with
      | Some tm_str =>
          room ← rooms_by_id cxn !! c_room chat;
          Some (purple_account_set_string (last_msgs_key (room_id room)) tm_str cxn)
      | None => Some cxn
      end
  end.

(** Lines 147-175. *)
Definition chime_complete_chat_setup (now : Z) (_chat : Z) (cxn : chime_connection)
    : option chime_connection :=
  chat ← chats cxn !! _chat;
  let l := queued_msgs (c_messages chat) in
  let chat := set_c_messages None chat in
  let cxn := set_chats (insert _chat chat) cxn in
  note_last_msg chat l (deliver_queued now chat l cxn).

(** Lines 177-185. *)
Definition one_msg_cb (_hash : option (gmap string JsonNode)) (node : JsonNode)
    : option (gmap string JsonNode) :=
  match parse_string node "MessageId" with
  | Some id => g_hash_table_insert _hash id node
  | None => _hash
  end.

(** Lines 213-229: the fields of the query after ["max-results"]. *)
Definition fetch_opts (after next_token : option string) : list (string * string) :=
  match after with
  | Some a => if decide (a = "") then [] else [("after", a)]
  | None => []
  end ++
  match next_token with
  | Some t => [("next-token", t)]
  | None => []
  end.

(** Lines 209-231. *)
Definition fetch_chat_messages (_chat : Z) (next_token : option string) (cxn : chime_connection)
    : option chime_connection :=
  chat ← chats cxn !! _chat;
  room ← rooms_by_id cxn !! c_room chat;
  let after := purple_account_get_string cxn (last_msgs_key (room_id room)) in
  let req := {| req_path := "/rooms/" +:+ room_id room +:+ "/messages";
                req_query := ("max-results", "50") :: fetch_opts after next_token;
                req_cb_data := _chat |} in
  let '(msg, cxn) := chime_queue_http_request req cxn in
  Some (set_chats (insert _chat (set_c_msgs_msg (Some msg) chat)) cxn).

(** Lines 189-207; the ghost notes the inserts of line 199.  The page is
    released after the callback has returned, by its caller. *)
Definition fetch_msgs_cb (now : Z) (msg : Z) (node : JsonNode) (_chat : Z)
    (cxn : chime_connection) : option chime_connection :=
  chat ← chats cxn !! _chat;
  let msgs_array := json_array_elements (json_get_member node "Messages") in
  let chat := set_c_msgs_msg None chat in
  let cxn :=
    match c_messages chat with
    | Some t => callback_end _chat (note_page _chat t msgs_array (callback_start cxn)) cxn
    | None => cxn
    end in
  let chat := set_c_messages (foldl one_msg_cb (c_messages chat) msgs_array) chat in
  let cxn := set_chats (insert _chat chat) cxn in
  match parse_string node "NextToken" with
  | Some next_token => fetch_chat_messages _chat (Some next_token) cxn
  | None => chime_complete_chat_setup now _chat cxn
  end.

(** Lines 233-257.  [data] is the table of join parameters; a missing
    ["RoomId"] makes line 241 hash a NULL string. *)
Definition chime_purple_join_chat (data : gmap string string) (cxn : chime_connection)
    : option chime_connection :=
  roomid ← data !! "RoomId";
  match rooms_by_id cxn !! roomid with
  | None => Some cxn
  | Some room =>
      match room_chat room with
      | Some _ => Some cxn
      | None =>
          let chat := next_chat cxn in
          let cxn := set_next_chat (chat + 1) cxn in
          let cxn := set_rooms_by_id (insert roomid (set_room_chat (Some chat) room)) cxn in
          let new_id := to_int (chat_id cxn + 1) in
          let cxn := set_chat_id new_id cxn in
          let name := data !! "Name" in
          let cxn := set_purple_log (λ log, log ++ [serv_got_joined_chat new_id name]) cxn in
          let cxn := set_live_chats (insert (GUINT_TO_POINTER new_id) chat) cxn in
          let c := {| c_room := roomid;
                      c_conv := {| conv_chat_id := new_id; conv_name := name |};
                      c_msgs_msg := None; c_members_msg := None;
                      c_got_members := false; c_got_msgs := false;
                      c_messages := Some ∅; c_members := None |} in
          let cxn := set_chats (insert chat c) cxn in
          let cxn :=
            set_subscriptions
              (chime_jugg_subscribe (room_channel room) chat_msg_cb_ptr (ChatData chat)) cxn in
          fetch_chat_messages chat None cxn
      end
  end.

(** Lines 87-94, for one of the two requests. *)
Definition cancel_if_set (msg : option Z) (cxn : chime_connection) : chime_connection :=
  match msg with
  | Some m => soup_session_cancel_message m cxn
  | None => cxn
  end.

(** Lines 80-108. *)
Definition chime_destroy_chat (_chat : Z) (cxn : chime_connection) : option chime_connection :=
  chat ← chats cxn !! _chat;
  room ← rooms_by_id cxn !! c_room chat;
  room_chat_ptr ← room_chat room;
  room_chat_val ← chats cxn !! room_chat_ptr;
  let id := conv_chat_id (c_conv room_chat_val) in
  let cxn := cancel_if_set (c_msgs_msg chat) cxn in
  let cxn := cancel_if_set (c_members_msg chat) cxn in
  let cxn :=
    set_subscriptions
      (chime_jugg_unsubscribe (room_channel room) chat_msg_cb_ptr (RoomData (c_room chat))) cxn in
  let cxn := set_purple_log (λ log, log ++ [serv_got_chat_left id]) cxn in
  let cxn := set_live_chats (delete (GUINT_TO_POINTER (room_id_addr room))) cxn in
  let cxn := set_chats (delete _chat) cxn in
  Some (set_rooms_by_id (insert (c_room chat) (set_room_chat None room)) cxn).

(** Lines 259-265; an id without entry hands NULL to [chime_destroy_chat]. *)
Definition chime_purple_chat_leave (id : Z) (cxn : chime_connection) : option chime_connection :=
  chat ← live_chats cxn !! GUINT_TO_POINTER id;
  chime_destroy_chat chat cxn.

(** ** The two transports calling back *)

(** Modelled from the spec: the HTTP session answers a queued request with
    the JSON page: the request leaves the queue and its callback,
    [fetch_msgs_cb], runs on the callback data.  A handle that is not queued
    (never issued, answered or cancelled) has no callback to run. *)
Definition soup_response (now : Z) (msg : Z) (page : JsonNode) (cxn : chime_connection)
    : option chime_connection :=
  match soup_queue cxn !! msg with
  | Some req => fetch_msgs_cb now msg page (req_cb_data req) (set_soup_queue (delete msg) cxn)
  | None => Some cxn
  end.

(** Modelled from the spec: the live feed hands an event of [channel] to
    every subscription of that channel, in order.  [chat_msg_cb] casts its
    data to a chat, so data that is a room is a fault. *)
Definition jugg_dispatch_one (now : Z) (event : JsonNode) (cxn : option chime_connection)
    (s : jugg_subscription) : option chime_connection :=
  cxn ← cxn;
  match sub_cb_data s with
  | ChatData chat => chat_msg_cb now chat event cxn
  | RoomData _ => None
  end.

Definition jugg_event (now : Z) (channel : string) (event : JsonNode) (cxn : chime_connection)
    : option chime_connection :=
  foldl (jugg_dispatch_one now event) (Some cxn)
        (filter (λ s, sub_channel s = channel) (subscriptions cxn)).

(** ** A session as a sequence of callbacks *)

(** The plugin runs on one event loop: joins and leaves from libpurple,
    pages from the HTTP session and events from the live feed arrive one at
    a time, each with its clock reading. *)
Inductive session_event :=
| EvJoin (data : gmap string string)
| EvLeave (id : Z)
| EvPage (msg : Z) (page : JsonNode)
| EvLive (channel : string) (event : JsonNode).

Definition session_step (now : Z) (ev : session_event) (cxn : chime_connection)
    : option chime_connection :=
  match ev with
  | EvJoin data => chime_purple_join_chat data cxn
  | EvLeave id => chime_purple_chat_leave id cxn
  | EvPage msg page => soup_response now msg page cxn
  | EvLive channel event => jugg_event now channel event cxn
  end.

Definition session_run (evs : list (Z * session_event)) (cxn : chime_connection)
    : option chime_connection :=
  foldl (λ c ev, c ≫= session_step ev.1 ev.2) (Some cxn) evs.

(** What reaches a chat while it is fetching: a page of the history
    ([fetch_msgs_cb]) or an event of the live feed ([chat_msg_cb]), in the
    order in which the event loop hands them over. *)
Inductive catch_up_step :=
| PageStep (now msg : Z) (page : JsonNode)
| LiveStep (now : Z) (event : JsonNode).

Definition catch_up_step_run (_chat : Z) (s : catch_up_step) (cxn : chime_connection)
    : option chime_connection :=
  match s with
  | PageStep now msg page => fetch_msgs_cb now msg page _chat cxn
  | LiveStep now event => chat_msg_cb now _chat event cxn
  end.

Definition catch_up_run (_chat : Z) (steps : list catch_up_step) (cxn : chime_connection)
    : option chime_connection :=
  foldl (λ c s, c ≫= catch_up_step_run _chat s) (Some cxn) steps.

(** ** Notions the properties are stated with *)

(** The parsed CreatedOn of a node, as [insert_queued_msg] computes it. *)
Definition parsed_time (n : JsonNode) : option GTimeVal :=
  parse_string n "CreatedOn" ≫= g_time_val_from_iso8601.

(** The list element [insert_queued_msg] builds for a node. *)
Definition msg_sort_of (n : JsonNode) : option msg_sort :=
  tv ← parsed_time n; Some {| tm := tv; node := n |}.

(** The call [chat_deliver_msg] makes for a node, if it makes one. *)
Definition delivery_of (now : Z) (chat : chime_chat) (n : JsonNode) (msg_time : Z)
    : option purple_call :=
  str ← parse_string n "Content";
  Some (serv_got_chat_in (conv_chat_id (c_conv chat)) "someone" str
          (if msg_time =? 0
           then match parsed_time n with Some tv => to_int (tv_sec tv) | None => to_int now end
           else msg_time)
          n).

Definition delivery_of_queued (now : Z) (chat : chime_chat) (ms : msg_sort)
    : option purple_call :=
  delivery_of now chat (node ms) (to_int (tv_sec (tm ms))).

End ChatC.

(** Earlier or equal, seconds first and then the sub-second part. *)
Definition tv_le (a b : GTimeVal) : Prop :=
  tv_sec a < tv_sec b ∨ (tv_sec a = tv_sec b ∧ tv_usec a <= tv_usec b).

Definition ms_le (a b : msg_sort) : Prop := tv_le (tm a) (tm b).

(** What arrives while the history is fetched: a record of a history page
    ([one_msg_cb]) or an event of the live feed ([chat_msg_cb]). *)
Inductive arrival :=
| FromHistory (record : JsonNode)
| FromLive (event : JsonNode).

(** The key and the value the arrival is stored under, if it is stored. *)
Definition arrival_entry (a : arrival) : option (string * JsonNode) :=
  match a with
  | FromHistory record => id ← parse_string record "MessageId"; Some (id, record)
  | FromLive event =>
      record ← json_get_member event "record";
      id ← parse_string record "MessageId";
      Some (id, event)
  end.

Definition buffer (t : gmap string JsonNode) (a : arrival) : gmap string JsonNode :=
  match arrival_entry a with
  | Some (id, n) => <[id := n]> t
  | None => t
  end.

(** The arrivals of a step, and whether a step is a page that names a next
    page (a step after which the chat is still fetching). *)
Definition step_arrivals (s : catch_up_step) : list arrival :=
  match s with
  | PageStep _ _ page =>
      FromHistory <$> json_array_elements (json_get_member page "Messages")
  | LiveStep _ event => [FromLive event]
  end.

Definition keeps_fetching (s : catch_up_step) : Prop :=
  match s with
  | PageStep _ _ page => is_Some (parse_string page "NextToken")
  | LiveStep _ _ => True
  end.



(** The ghost after the insert of a live event into the table [t]. *)
Definition note_live (chat : Z) (t : gmap string JsonNode) (event : JsonNode)
    (cxn : chime_connection) : chime_connection :=
  match arrival_entry (FromLive event) with
  | Some (id, _) => callback_end chat (note_insert chat t id (callback_start cxn)) cxn
  | None => cxn
  end.




(** The message ids of the nodes shown by [serv_got_chat_in], in order. *)
Definition delivered_ids (log : list purple_call) : list string :=
  omap (λ c, match c with
             | serv_got_chat_in _ _ _ _ src => parse_string src "MessageId"
             | _ => None
             end) log.

(** The nodes shown by [serv_got_chat_in], in order. *)
Definition delivered_nodes (log : list purple_call) : list JsonNode :=
  omap (λ c, match c with
             | serv_got_chat_in _ _ _ _ src => Some src
             | _ => None
             end) log.

(** The records of a batch that [chat_deliver_msg] shows: those whose node
    has a Content. *)
Definition shown_of (l : list msg_sort) : list msg_sort :=
  filter (λ ms, is_Some (parse_string (node ms) "Content")) l.

(** ** An instance for the examples *)

(** The timestamps of the service have the form
    [YYYY-MM-DDThh:mm:ss.fffZ].  [iso8601_utc] reads that form only (UTC,
    years from 1970, optional fraction) and gives the value
    [g_time_val_from_iso8601] gives on it: seconds since the epoch, and the
    first six digits of the fraction as microseconds. *)
Definition digit_of (c : Ascii.ascii) : option Z :=
  let n := Z.of_nat (Ascii.nat_of_ascii c) in
  if (48 <=? n) && (n <=? 57) then Some (n - 48) else None.

Fixpoint digits_of (cs : list Ascii.ascii) : option Z :=
  match cs with
  | [] => Some 0
  | c :: rest => d ← digit_of c; n ← digits_of rest; Some (d * 10 ^ Z.of_nat (length rest) + n)
  end.

Definition days_from_civil (y m d : Z) : Z :=
  let y := if m <=? 2 then y - 1 else y in
  let era := y / 400 in
  let yoe := y - era * 400 in
  let doy := (153 * (if m >? 2 then m - 3 else m + 9) + 2) / 5 + d - 1 in
  let doe := yoe * 365 + yoe / 4 - yoe / 100 + doy in
  era * 146097 + doe - 719468.

Fixpoint usec_of (cs : list Ascii.ascii) (mul : Z) : option Z :=
  match cs with
  | [] => Some 0
  | c :: rest => d ← digit_of c; n ← usec_of rest (mul / 10); Some (d * mul + n)
  end.

Definition is_char (c : Ascii.ascii) (s : string) : bool := bool_decide (String c EmptyString = s).

Definition iso8601_utc (s : string) : option GTimeVal :=
  match String.list_ascii_of_string s with
  | y1 :: y2 :: y3 :: y4 :: c1 :: m1 :: m2 :: c2 :: d1 :: d2 :: c3 ::
    h1 :: h2 :: c4 :: n1 :: n2 :: c5 :: s1 :: s2 :: rest =>
      if is_char c1 "-" && is_char c2 "-" && is_char c3 "T" && is_char c4 ":" && is_char c5 ":"
      then
        year ← digits_of [y1; y2; y3; y4];
        mon ← digits_of [m1; m2];
        mday ← digits_of [d1; d2];
        hour ← digits_of [h1; h2];
        min ← digits_of [n1; n2];
        sec ← digits_of [s1; s2];
        usec ←
          match rev rest with
          | z :: frac_rev =>
              if is_char z "Z" then
                match rev frac_rev with
                | [] => Some 0
                | dot :: frac => if is_char dot "." then usec_of frac 100000 else None
                end
              else None
          | [] => None
          end;
        if (1970 <=? year) && (1 <=? mon) && (mon <=? 12) && (1 <=? mday) && (mday <=? 31)
           && (hour <=? 23) && (min <=? 59) && (sec <=? 59)
        then Some {| tv_sec := ((days_from_civil year mon mday * 24 + hour) * 60 + min) * 60 + sec;
                     tv_usec := usec |}
        else None
      else None
  | _ => None
  end.

(** One enumeration order of a table: by key, as [map_to_list] has it. *)
Definition table_order (t : gmap string JsonNode) : list (string * JsonNode) := map_to_list t.

(** ** Data for the examples *)

(** A connection that knows one room, with no chat and no watermark. *)
Definition room_r1 : chime_room :=
  {| room_id := "r1"; room_id_addr := 94371391365792;
     room_channel := "room-r1"; room_chat := None |}.

Definition cxn0 : chime_connection :=
  {| rooms_by_id := {[ "r1" := room_r1 ]}; live_chats := ∅; chat_id := 0;
     subscriptions := []; soup_queue := ∅; next_soup := 0;
     account_strings := ∅; chats := ∅; next_chat := 4096; purple_log := [];
     dangling_keys := ∅; dangling_key_read := false |}.

(** The same connection after an earlier catch-up left a watermark. *)
Definition cxn0_watermark : chime_connection :=
  purple_account_set_string "last-room-r1" "2017-05-01T09:00:00.000Z" cxn0.

Definition join_r1 : gmap string string := {[ "RoomId" := "r1"; "Name" := "Room one" ]}.

Definition message (id content created : string) : JsonNode :=
  JObject [("MessageId", JString id); ("Content", JString content);
           ("CreatedOn", JString created)].

Definition msg_a : JsonNode := message "a" "hello" "2017-05-01T10:00:10.000Z".
Definition msg_a_again : JsonNode := message "a" "edited" "2017-05-01T10:00:10.000Z".
Definition msg_b : JsonNode := message "b" "first" "2017-05-01T10:00:05.000Z".

(** A record without Content, later than the others. *)
Definition msg_c : JsonNode :=
  JObject [("MessageId", JString "c"); ("CreatedOn", JString "2017-05-01T10:00:20.000Z")].

(** A record whose CreatedOn does not parse. *)
Definition msg_d : JsonNode := message "d" "when" "yesterday".

(** A record without MessageId. *)
Definition msg_anon : JsonNode :=
  JObject [("Content", JString "who"); ("CreatedOn", JString "2017-05-01T10:00:07.000Z")].

Definition history_page (records : list JsonNode) (next_token : option string) : JsonNode :=
  JObject (("Messages", JArray records) ::
           match next_token with
           | Some tok => [("NextToken", JString tok)]
           | None => []
           end).

Definition live_event (record : JsonNode) : JsonNode := JObject [("record", record)].

(** The room and the chat after the join and a first page that announces a
    second one: the chat is still fetching and holds four records. *)
Definition table_abcd : gmap string JsonNode :=
  {[ "a" := msg_a; "b" := msg_b; "c" := msg_c; "d" := msg_d ]}.

Definition room_r1_joined : chime_room := set_room_chat (Some 4096) room_r1.

Definition chat_fetching : chime_chat :=
  {| c_room := "r1";
     c_conv := {| conv_chat_id := 1; conv_name := Some "Room one" |};
     c_msgs_msg := Some 1; c_members_msg := None;
     c_got_members := false; c_got_msgs := false;
     c_messages := Some table_abcd; c_members := None |}.

Definition cxn_fetching : chime_connection :=
  default cxn0
    (session_run iso8601_utc table_order
       [(1493632900, EvJoin join_r1);
        (1493632901, EvPage 0 (history_page [msg_a; msg_b; msg_c; msg_d; msg_anon] (Some "X")))]
       cxn0).

(** A live message with Content and CreatedOn. *)
Definition msg_e : JsonNode := message "e" "live" "2017-05-01T10:00:15.000Z".

(** The list element of [msg_c]. *)
Definition ms_c : msg_sort :=
  {| tm := {| tv_sec := 1493632820; tv_usec := 0 |}; node := msg_c |}.

(** Further data: a table of two records, the list elements of [msg_a]
    and [msg_b] and one more of the time of [msg_a], a second visiting
    order, and the connection after the join, after a leave that follows
    it, after a live event that reaches the fetching chat, and after the
    drain of the fetching chat. *)
Definition table_ab : gmap string JsonNode := {[ "a" := msg_a; "b" := msg_b ]}.

Definition ms_a : msg_sort :=
  {| tm := {| tv_sec := 1493632810; tv_usec := 0 |}; node := msg_a |}.

Definition ms_b : msg_sort :=
  {| tm := {| tv_sec := 1493632805; tv_usec := 0 |}; node := msg_b |}.

Definition ms_a_again : msg_sort :=
  {| tm := {| tv_sec := 1493632810; tv_usec := 0 |}; node := msg_a_again |}.

Definition table_order_rev (t : gmap string JsonNode) : list (string * JsonNode) :=
  reverse (map_to_list t).

Definition cxn_joined : chime_connection :=
  default cxn0 (chime_purple_join_chat join_r1 cxn0).

Definition chat_joined : chime_chat :=
  {| c_room := "r1";
     c_conv := {| conv_chat_id := 1; conv_name := Some "Room one" |};
     c_msgs_msg := Some 0; c_members_msg := None;
     c_got_members := false; c_got_msgs := false;
     c_messages := Some ∅; c_members := None |}.

Definition cxn_left : chime_connection :=
  default cxn0 (chime_purple_chat_leave 1 cxn_joined).

Definition cxn_fetching_e : chime_connection :=
  default cxn0 (chat_msg_cb iso8601_utc 1493632950 4096 (live_event msg_e) cxn_fetching).

Definition cxn_drained : chime_connection :=
  default cxn0 (chime_complete_chat_setup iso8601_utc table_order 1493633000 4096 cxn_fetching).

(** A catch-up of the fetching chat: a second page, with a second record
    of id ["a"], and a live event; then the connection after these steps
    and after the last page. *)
Definition catch_up_steps : list catch_up_step :=
  [PageStep 1493632950 1 (history_page [msg_e; msg_a_again] (Some "Y"));
   LiveStep 1493632960 (live_event msg_e)].



(** * Properties *)

(** ** The sorted list *)

Lemma compare_ms_pos (a b : msg_sort) : (compare_ms a b >? 0) = true ↔ ¬ ms_le a b.
Proof.
  unfold compare_ms, ms_le, tv_le.
  destruct (Z.gtb_spec (tv_sec (tm a)) (tv_sec (tm b))) as [Hs|Hs]; [simpl; split; [lia|done]|].
  destruct (Z.eqb_spec (tv_sec (tm a)) (tv_sec (tm b))) as [He|He]; simpl.
  - destruct (Z.gtb_spec (tv_usec (tm a)) (tv_usec (tm b))); simpl; split; (done || lia).
  - split; [done | lia].
Qed.

Lemma compare_ms_nonpos (a b : msg_sort) : (compare_ms a b >? 0) = false ↔ ms_le a b.
Proof.
  destruct (compare_ms a b >? 0) eqn:E.
  - apply compare_ms_pos in E. split; [done | tauto].
  - split; [intros _ | done].
    destruct (decide (ms_le a b)) as [|Hn]; [done|].
    apply compare_ms_pos in Hn. congruence.
Qed.

Lemma ms_le_total (a b : msg_sort) : ms_le a b ∨ ms_le b a.
Proof. unfold ms_le, tv_le. lia. Qed.

Lemma ms_le_trans (a b c : msg_sort) : ms_le a b → ms_le b c → ms_le a c.
Proof. unfold ms_le, tv_le. lia. Qed.

Lemma g_list_insert_sorted_perm (l : list msg_sort) (d : msg_sort) f :
  g_list_insert_sorted l d f ≡ₚ d :: l.
Proof.
  induction l as [|x l IH]; simpl; [done|].
  destruct (f d x >? 0); [|done].
  rewrite IH. apply Permutation_swap.
Qed.

Lemma g_list_insert_sorted_sorted (l : list msg_sort) (d : msg_sort) :
  StronglySorted ms_le l → StronglySorted ms_le (g_list_insert_sorted l d compare_ms).
Proof.
  induction 1 as [|x l Hl IH Hx]; simpl.
  - repeat constructor.
  - destruct (compare_ms d x >? 0) eqn:E.
    + constructor; [done|].
      rewrite g_list_insert_sorted_perm. constructor; [|done].
      apply compare_ms_pos in E. destruct (ms_le_total x d); tauto.
    + apply compare_ms_nonpos in E.
      constructor; [by constructor|].
      constructor; [done|].
      eapply Forall_impl; [exact Hx|]. intros y Hy. by eapply ms_le_trans.
Qed.

(** ** The drain *)

Section Drain.

Variable g_time_val_from_iso8601 : string -> option GTimeVal.
Variable g_hash_table_order : gmap string JsonNode -> list (string * JsonNode).

(** Every pair of the table is visited once. *)
Hypothesis g_hash_table_order_perm : ∀ t, g_hash_table_order t ≡ₚ map_to_list t.

Local Abbreviation parsed_time := (parsed_time g_time_val_from_iso8601).
Local Abbreviation msg_sort_of := (msg_sort_of g_time_val_from_iso8601).
Local Abbreviation insert_queued_msg := (insert_queued_msg g_time_val_from_iso8601).
Local Abbreviation queued_msgs := (queued_msgs g_time_val_from_iso8601 g_hash_table_order).
Local Abbreviation chat_deliver_msg := (chat_deliver_msg g_time_val_from_iso8601).
Local Abbreviation deliver_queued := (deliver_queued g_time_val_from_iso8601).
Local Abbreviation delivery_of := (delivery_of g_time_val_from_iso8601).
Local Abbreviation delivery_of_queued := (delivery_of_queued g_time_val_from_iso8601).
Local Abbreviation chime_complete_chat_setup :=
  (chime_complete_chat_setup g_time_val_from_iso8601 g_hash_table_order).
Local Abbreviation chat_msg_cb := (chat_msg_cb g_time_val_from_iso8601).
Local Abbreviation fetch_msgs_cb := (fetch_msgs_cb g_time_val_from_iso8601 g_hash_table_order).

Lemma insert_queued_msg_spec (k : string) (v : JsonNode) (l : list msg_sort) :
  insert_queued_msg k v l =
    match msg_sort_of v with
    | Some ms => g_list_insert_sorted l ms compare_ms
    | None => l
    end.
Proof.
  unfold insert_queued_msg, msg_sort_of, parsed_time.
  destruct (parse_string v "CreatedOn") as [str|]; simpl; [|done].
  by destruct (g_time_val_from_iso8601 str).
Qed.

Lemma fold_insert_queued_perm (kvs : list (string * JsonNode)) (l0 : list msg_sort) :
  foldl (λ l kv, insert_queued_msg kv.1 kv.2 l) l0 kvs
    ≡ₚ omap (λ kv, msg_sort_of kv.2) kvs ++ l0.
Proof.
  revert l0. induction kvs as [|[k v] kvs IH]; intros l0; simpl; [done|].
  rewrite IH, insert_queued_msg_spec.
  destruct (msg_sort_of v) as [ms|]; simpl; [|done].
  rewrite g_list_insert_sorted_perm. by rewrite Permutation_middle.
Qed.

Lemma fold_insert_queued_sorted (kvs : list (string * JsonNode)) (l0 : list msg_sort) :
  StronglySorted ms_le l0 →
  StronglySorted ms_le (foldl (λ l kv, insert_queued_msg kv.1 kv.2 l) l0 kvs).
Proof.
  revert l0. induction kvs as [|[k v] kvs IH]; intros l0 Hl0; simpl; [done|].
  apply IH. rewrite insert_queued_msg_spec.
  destruct (msg_sort_of v); [by apply g_list_insert_sorted_sorted | done].
Qed.

Lemma queued_msgs_sorted (table : option (gmap string JsonNode)) :
  StronglySorted ms_le (queued_msgs table).
Proof.
  destruct table as [t|]; simpl; [|constructor].
  apply fold_insert_queued_sorted. constructor.
Qed.

Lemma queued_msgs_perm (t : gmap string JsonNode) :
  queued_msgs (Some t) ≡ₚ omap (λ kv, msg_sort_of kv.2) (map_to_list t).
Proof.
  simpl. rewrite fold_insert_queued_perm, app_nil_r.
  by rewrite g_hash_table_order_perm.
Qed.

Lemma elem_of_queued_msgs (t : gmap string JsonNode) (ms : msg_sort) :
  ms ∈ queued_msgs (Some t) ↔
  ∃ k, t !! k = Some (node ms) ∧ parsed_time (node ms) = Some (tm ms).
Proof.
  rewrite queued_msgs_perm, list_elem_of_omap. split.
  - intros [[k v] [Hin Hms]]. apply elem_of_map_to_list in Hin.
    unfold msg_sort_of in Hms. simpl in Hms.
    destruct (parsed_time v) as [tv|] eqn:E; simplify_eq/=. eauto.
  - intros [k [Hk Ht]]. exists (k, node ms). split; [by apply elem_of_map_to_list|].
    unfold msg_sort_of. simpl. rewrite Ht. by destruct ms.
Qed.

(** The deliveries of the loop, call by call. *)
Lemma chat_deliver_msg_log (now : Z) (chat : chime_chat) (n : JsonNode) (msg_time : Z)
    (cxn : chime_connection) :
  chat_deliver_msg now chat n msg_time cxn =
    match delivery_of now chat n msg_time with
    | Some c => set_purple_log (λ log, log ++ [c]) cxn
    | None => cxn
    end.
Proof.
  unfold chat_deliver_msg, delivery_of, parsed_time.
  destruct (parse_string n "Content") as [str|]; simpl; [|done].
  destruct (msg_time =? 0); [|done].
  destruct (parse_string n "CreatedOn") as [s|]; simpl; [|done].
  by destruct (g_time_val_from_iso8601 s).
Qed.

Lemma deliver_queued_spec (now : Z) (chat : chime_chat) (l : list msg_sort)
    (cxn : chime_connection) :
  deliver_queued now chat l cxn =
    set_purple_log (λ log, log ++ omap (delivery_of_queued now chat) l) cxn.
Proof.
  revert cxn. induction l as [|ms l IH]; intros cxn.
  - destruct cxn; unfold set_purple_log; simpl. by rewrite app_nil_r.
  - change (deliver_queued now chat (ms :: l) cxn)
      with (deliver_queued now chat l
              (chat_deliver_msg now chat (node ms) (to_int (tv_sec (tm ms))) cxn)).
    rewrite IH, chat_deliver_msg_log. simpl.
    unfold delivery_of_queued at 2.
    destruct (delivery_of now chat (node ms) (to_int (tv_sec (tm ms)))) as [c|]; [|done].
    destruct cxn; unfold set_purple_log; simpl. by rewrite <- app_assoc.
Qed.

Lemma delivery_of_queued_set_c_messages (now : Z) (chat : chime_chat) x :
  delivery_of_queued now (set_c_messages x chat) = delivery_of_queued now chat.
Proof. done. Qed.

Lemma chime_complete_chat_setup_spec (now p : Z) (cxn : chime_connection) (chat : chime_chat) :
  chats cxn !! p = Some chat →
  chime_complete_chat_setup now p cxn =
    note_last_msg (set_c_messages None chat) (queued_msgs (c_messages chat))
      (set_purple_log
         (λ log, log ++ omap (delivery_of_queued now chat) (queued_msgs (c_messages chat)))
         (set_chats (insert p (set_c_messages None chat)) cxn)).
Proof.
  intros Hp. unfold chime_complete_chat_setup. rewrite Hp. simpl.
  by rewrite deliver_queued_spec.
Qed.

(** What the drain leaves behind, for a chat that is still fetching. *)
Lemma chime_complete_chat_setup_result (now p : Z) (cxn : chime_connection)
    (chat : chime_chat) (room : chime_room) :
  chats cxn !! p = Some chat →
  rooms_by_id cxn !! c_room chat = Some room →
  ∃ cxn',
    chime_complete_chat_setup now p cxn = Some cxn' ∧
    purple_log cxn' =
      purple_log cxn ++ omap (delivery_of_queued now chat) (queued_msgs (c_messages chat)) ∧
    chats cxn' = <[p := set_c_messages None chat]> (chats cxn) ∧
    account_strings cxn' =
      match last (queued_msgs (c_messages chat)) ≫= (λ ms, parse_string (node ms) "CreatedOn") with
      | Some tm_str => <[last_msgs_key (room_id room) := tm_str]> (account_strings cxn)
      | None => account_strings cxn
      end.
Proof.
  intros Hp Hroom. rewrite (chime_complete_chat_setup_spec _ _ _ _ Hp).
  unfold note_last_msg.
  destruct (last (queued_msgs (c_messages chat))) as [ms|]; simpl; [|by eexists].
  destruct (parse_string (node ms) "CreatedOn") as [s|]; simpl; [|by eexists].
  rewrite Hroom. simpl. by eexists.
Qed.

Lemma delivered_nodes_queued (now : Z) (chat : chime_chat) (l : list msg_sort) :
  delivered_nodes (omap (delivery_of_queued now chat) l) = node <$> shown_of l.
Proof.
  unfold shown_of. induction l as [|ms l IH]; [done|]. csimpl.
  unfold delivery_of_queued at 1, delivery_of.
  destruct (parse_string (node ms) "Content") as [c|] eqn:E; csimpl.
  - rewrite filter_cons_True by (by rewrite E). csimpl. by rewrite IH.
  - rewrite filter_cons_False by (rewrite E; by intros [??]). done.
Qed.

Lemma shown_of_sorted (l : list msg_sort) :
  StronglySorted ms_le l → StronglySorted ms_le (shown_of l).
Proof.
  unfold shown_of. induction 1 as [|ms l Hl IH Hms]; [constructor|].
  rewrite filter_cons. case_decide; [|done].
  constructor; [done|]. apply Forall_forall. intros ms' Hin.
  apply list_elem_of_filter in Hin as [_ Hin].
  rewrite Forall_forall in Hms. by apply Hms.
Qed.

(** C3, as the code has it.  On completion of the catch-up of a chat whose
    table is [t], the drain runs to its end.  The batch it hands, in order,
    to [chat_deliver_msg] is sorted by the parsed CreatedOn (seconds, then
    microseconds, non-decreasing), carries for each record its own parsed
    CreatedOn, and holds every stored record whose CreatedOn parses.  The
    records it delivers are those of the batch that have a Content, in the
    order of the batch, hence sorted as well; every stored record with a
    parsable CreatedOn and a Content is among them. *)
Theorem drain_sorted_by_created_on (now p : Z) (cxn : chime_connection) (chat : chime_chat)
    (t : gmap string JsonNode) (room : chime_room) :
  chats cxn !! p = Some chat →
  c_messages chat = Some t →
  rooms_by_id cxn !! c_room chat = Some room →
  ∃ cxn',
    chime_complete_chat_setup now p cxn = Some cxn' ∧
    StronglySorted ms_le (queued_msgs (Some t)) ∧
    Forall (λ ms, parsed_time (node ms) = Some (tm ms)) (queued_msgs (Some t)) ∧
    (∀ k v tv, t !! k = Some v → parsed_time v = Some tv →
               {| tm := tv; node := v |} ∈ queued_msgs (Some t)) ∧
    purple_log cxn' =
      purple_log cxn ++ omap (delivery_of_queued now chat) (queued_msgs (Some t)) ∧
    delivered_nodes (drop (length (purple_log cxn)) (purple_log cxn'))
      = node <$> shown_of (queued_msgs (Some t)) ∧
    StronglySorted ms_le (shown_of (queued_msgs (Some t))) ∧
    (∀ k v tv, t !! k = Some v → parsed_time v = Some tv →
               is_Some (parse_string v "Content") →
               {| tm := tv; node := v |} ∈ shown_of (queued_msgs (Some t))).
Proof.
  intros Hp Ht Hroom.
  destruct (chime_complete_chat_setup_result now p cxn chat room Hp Hroom)
    as (cxn' & Hrun & Hlog & _ & _).
  rewrite Ht in Hlog.
  assert (Hall : ∀ k v tv, t !! k = Some v → parsed_time v = Some tv →
                           {| tm := tv; node := v |} ∈ queued_msgs (Some t)).
  { intros k v tv Hk Hv. apply elem_of_queued_msgs. by exists k. }
  exists cxn'. split_and!; [done | apply queued_msgs_sorted | | done | done | | |].
  - apply Forall_forall. intros ms Hms. apply elem_of_queued_msgs in Hms as [_ [_ H]]. exact H.
  - rewrite Hlog, drop_app_length. apply delivered_nodes_queued.
  - apply shown_of_sorted, queued_msgs_sorted.
  - intros k v tv Hk Hv Hc. apply list_elem_of_filter. split; [done | by eapply Hall].
Qed.

(** The watermark after the drain, with the log it leaves. *)
Lemma drain_watermark (now p : Z) (cxn : chime_connection) (chat : chime_chat)
    (t : gmap string JsonNode) (room : chime_room) :
  chats cxn !! p = Some chat →
  c_messages chat = Some t →
  rooms_by_id cxn !! c_room chat = Some room →
  ∃ cxn',
    chime_complete_chat_setup now p cxn = Some cxn' ∧
    purple_log cxn' =
      purple_log cxn ++ omap (delivery_of_queued now chat) (queued_msgs (Some t)) ∧
    match last (queued_msgs (Some t)) with
    | Some ms =>
        ∃ tm_str,
          parse_string (node ms) "CreatedOn" = Some tm_str ∧
          g_time_val_from_iso8601 tm_str = Some (tm ms) ∧
          account_strings cxn' = <[last_msgs_key (room_id room) := tm_str]> (account_strings cxn)
    | None => account_strings cxn' = account_strings cxn
    end.
Proof.
  intros Hp Ht Hroom.
  destruct (chime_complete_chat_setup_result now p cxn chat room Hp Hroom)
    as (cxn' & Hrun & Hlog & _ & Hacc).
  rewrite Ht in Hlog, Hacc.
  exists cxn'. split_and!; [done | done |].
  destruct (last (queued_msgs (Some t))) as [ms|] eqn:Hlast; [|done].
  assert (Hin : ms ∈ queued_msgs (Some t)).
  { apply last_Some in Hlast as [l' ->]. set_solver. }
  apply elem_of_queued_msgs in Hin as [k [_ Hparsed]].
  unfold parsed_time in Hparsed. simpl in Hacc.
  destruct (parse_string (node ms) "CreatedOn") as [s|] eqn:Hs; [|done].
  simpl in Hparsed. by exists s.
Qed.

(** C4, as the code has it.  On completion of the catch-up, when the sorted
    batch is not empty the watermark, the account string of the room, is set
    to the CreatedOn string of the last record of the batch, the last one
    handed to [chat_deliver_msg], which is the last record delivered when it
    has a Content; nothing else is written.  When the batch is empty the
    account strings are not written at all. *)
Theorem watermark_from_last_of_batch (now p : Z) (cxn : chime_connection) (chat : chime_chat)
    (t : gmap string JsonNode) (room : chime_room) :
  chats cxn !! p = Some chat →
  c_messages chat = Some t →
  rooms_by_id cxn !! c_room chat = Some room →
  ∃ cxn',
    chime_complete_chat_setup now p cxn = Some cxn' ∧
    match last (queued_msgs (Some t)) with
    | Some ms =>
        ∃ tm_str,
          parse_string (node ms) "CreatedOn" = Some tm_str ∧
          g_time_val_from_iso8601 tm_str = Some (tm ms) ∧
          account_strings cxn' = <[last_msgs_key (room_id room) := tm_str]> (account_strings cxn) ∧
          purple_account_get_string cxn' (last_msgs_key (room_id room)) = Some tm_str ∧
          (is_Some (parse_string (node ms) "Content") →
           last (delivered_nodes (purple_log cxn')) = Some (node ms))
    | None => account_strings cxn' = account_strings cxn
    end.
Proof.
  intros Hp Ht Hroom.
  destruct (drain_watermark now p cxn chat t room Hp Ht Hroom) as (cxn' & Hrun & Hlog & Hw).
  exists cxn'. split; [done|].
  destruct (last (queued_msgs (Some t))) as [ms|] eqn:Hlast; [|done].
  destruct Hw as (s & Hs & Hparsed & Hacc).
  exists s. split_and!; [done | done | done | |].
  - unfold purple_account_get_string. rewrite Hacc. apply lookup_insert_eq.
  - intros [c Hc]. rewrite Hlog.
    apply last_Some in Hlast as [l' Hl']. rewrite Hl'.
    unfold delivered_nodes. rewrite omap_app, !omap_app. simpl.
    unfold delivery_of_queued at 2, delivery_of. rewrite Hc. simpl.
    rewrite !app_assoc. apply last_snoc.
Qed.

Lemma queued_msgs_delete_unparsable (t : gmap string JsonNode) (k : string) (v : JsonNode) :
  t !! k = Some v → parsed_time v = None →
  queued_msgs (Some t) ≡ₚ queued_msgs (Some (delete k t)).
Proof.
  intros Hk Hv. rewrite !queued_msgs_perm.
  rewrite <- (map_to_list_delete t k v Hk). csimpl.
  unfold msg_sort_of at 1. by rewrite Hv.
Qed.

(** C9, as the code has it.  A history record or a live event whose record
    has no MessageId string leaves the table as it was.  A stored record
    whose CreatedOn is missing or does not parse is left out of the sorted
    batch and is not shown, and the drain still runs to its end: the batch
    is the one the table gives without that record, it is sorted and holds
    every other stored record whose CreatedOn parses.  Of the batch, the
    records shown are those that have a Content, in the order of the batch:
    every other stored record with a parsable CreatedOn and a Content is
    shown, and a record without Content is not. *)
Theorem malformed_records_dropped (now p : Z) (cxn : chime_connection) (chat : chime_chat)
    (t : gmap string JsonNode) (room : chime_room) :
  chats cxn !! p = Some chat →
  c_messages chat = Some t →
  rooms_by_id cxn !! c_room chat = Some room →
  (∀ record, parse_string record "MessageId" = None →
             one_msg_cb (Some t) record = Some t) ∧
  (∀ event record, json_get_member event "record" = Some record →
                   parse_string record "MessageId" = None →
                   chat_msg_cb now p event cxn = Some cxn) ∧
  ∃ cxn',
    chime_complete_chat_setup now p cxn = Some cxn' ∧
    (∀ k v, t !! k = Some v → parsed_time v = None →
            (v ∉ (node <$> queued_msgs (Some t))) ∧
            (v ∉ delivered_nodes (drop (length (purple_log cxn)) (purple_log cxn'))) ∧
            queued_msgs (Some t) ≡ₚ queued_msgs (Some (delete k t))) ∧
    (∀ k v tv, t !! k = Some v → parsed_time v = Some tv →
               {| tm := tv; node := v |} ∈ queued_msgs (Some t)) ∧
    StronglySorted ms_le (queued_msgs (Some t)) ∧
    delivered_nodes (drop (length (purple_log cxn)) (purple_log cxn'))
      = node <$> shown_of (queued_msgs (Some t)) ∧
    StronglySorted ms_le (shown_of (queued_msgs (Some t))) ∧
    (∀ k v tv, t !! k = Some v → parsed_time v = Some tv →
               is_Some (parse_string v "Content") →
               {| tm := tv; node := v |} ∈ shown_of (queued_msgs (Some t))) ∧
    (∀ v, parse_string v "Content" = None →
          v ∉ delivered_nodes (drop (length (purple_log cxn)) (purple_log cxn'))).
Proof.
  intros Hp Ht Hroom. split_and!.
  - intros record Hid. unfold one_msg_cb. by rewrite Hid.
  - intros event record Hrec Hid. unfold chat_msg_cb.
    rewrite Hrec, Hp. simpl. by rewrite Ht, Hid.
  - destruct (chime_complete_chat_setup_result now p cxn chat room Hp Hroom)
      as (cxn' & Hrun & Hlog & _ & _).
    rewrite Ht in Hlog.
    assert (Hshown : delivered_nodes (drop (length (purple_log cxn)) (purple_log cxn'))
                     = node <$> shown_of (queued_msgs (Some t))).
    { rewrite Hlog, drop_app_length. apply delivered_nodes_queued. }
    assert (Hnot : ∀ v, parsed_time v = None → v ∉ (node <$> queued_msgs (Some t))).
    { intros v Hv Hin. apply list_elem_of_fmap in Hin as [ms [-> Hms]].
      apply elem_of_queued_msgs in Hms as [_ [_ H]]. congruence. }
    assert (Hall : ∀ k v tv, t !! k = Some v → parsed_time v = Some tv →
                             {| tm := tv; node := v |} ∈ queued_msgs (Some t)).
    { intros k v tv Hk Hv. apply elem_of_queued_msgs. by exists k. }
    exists cxn'. split_and!; [done | | done | apply queued_msgs_sorted | done | | |].
    + intros k v Hk Hv. split_and!; [by apply Hnot | | by eapply queued_msgs_delete_unparsable].
      rewrite Hshown. intros Hin. apply (Hnot v Hv).
      apply list_elem_of_fmap in Hin as [ms [-> Hms]].
      apply list_elem_of_filter in Hms as [_ Hms].
      apply list_elem_of_fmap. by exists ms.
    + apply shown_of_sorted, queued_msgs_sorted.
    + intros k v tv Hk Hv Hc. apply list_elem_of_filter. split; [done | by eapply Hall].
    + intros v Hv. rewrite Hshown. intros Hin.
      apply list_elem_of_fmap in Hin as [ms [-> Hms]].
      apply list_elem_of_filter in Hms as [[c Hc] _]. congruence.
Qed.

(** C10. A node without a Content string is never shown: [chat_deliver_msg]
    leaves the connection as it was, whatever the time and the mode, so a
    live event whose record lacks Content changes nothing once live, and the
    drain shows no such node either.  Yet when the last record of the sorted
    batch lacks Content, the drain still sets the watermark to the CreatedOn
    of that record, which it has not shown. *)
Theorem watermark_from_undelivered_record (now p : Z) (cxn : chime_connection)
    (chat : chime_chat) (t : gmap string JsonNode) (room : chime_room) (ms : msg_sort) :
  chats cxn !! p = Some chat →
  c_messages chat = Some t →
  rooms_by_id cxn !! c_room chat = Some room →
  last (queued_msgs (Some t)) = Some ms →
  parse_string (node ms) "Content" = None →
  (∀ n now' chat' msg_time cxn0,
     parse_string n "Content" = None →
     chat_deliver_msg now' chat' n msg_time cxn0 = cxn0) ∧
  (∀ now' p' chat' event record cxn0,
     json_get_member event "record" = Some record →
     parse_string record "Content" = None →
     chats cxn0 !! p' = Some chat' → c_messages chat' = None →
     chat_msg_cb now' p' event cxn0 = Some cxn0) ∧
  ∃ cxn' tm_str,
    chime_complete_chat_setup now p cxn = Some cxn' ∧
    (∀ n, parse_string n "Content" = None →
          n ∉ delivered_nodes (drop (length (purple_log cxn)) (purple_log cxn'))) ∧
    parse_string (node ms) "CreatedOn" = Some tm_str ∧
    purple_account_get_string cxn' (last_msgs_key (room_id room)) = Some tm_str.
Proof.
  intros Hp Ht Hroom Hlast Hc.
  assert (Hdel : ∀ n now' chat' msg_time cxn0,
             parse_string n "Content" = None →
             chat_deliver_msg now' chat' n msg_time cxn0 = cxn0).
  { intros n ???? Hn. rewrite chat_deliver_msg_log. unfold delivery_of. by rewrite Hn. }
  split_and!; [done | |].
  - intros now' p' chat' event record cxn0 Hrec Hn Hp' Hm. unfold chat_msg_cb.
    rewrite Hrec, Hp'. simpl. rewrite Hm. by rewrite Hdel.
  - destruct (drain_watermark now p cxn chat t room Hp Ht Hroom) as (cxn' & Hrun & Hlog & Hw).
    rewrite Hlast in Hw. destruct Hw as (s & Hs & _ & Hacc).
    exists cxn', s. split_and!; [done | | done |].
    2: { unfold purple_account_get_string. rewrite Hacc. apply lookup_insert_eq. }
    intros n Hn. rewrite Hlog, drop_app_length.
    unfold delivered_nodes. intros Hin.
    apply list_elem_of_omap in Hin as [c [Hcin Hsrc]].
    apply list_elem_of_omap in Hcin as [ms' [_ Hms']].
    unfold delivery_of_queued, delivery_of in Hms'.
    destruct (parse_string (node ms') "Content") as [str|] eqn:E; simplify_eq/=; congruence.
Qed.

(** *** One node per message id *)





End Drain.

(** ** The catch-up: arrivals, the table and the drain *)

Lemma one_msg_cb_buffer (t : gmap string JsonNode) (record : JsonNode) :
  one_msg_cb (Some t) record = Some (buffer t (FromHistory record)).
Proof.
  unfold one_msg_cb, buffer. simpl.
  by destruct (parse_string record "MessageId").
Qed.

Lemma foldl_one_msg_cb_buffer (records : list JsonNode) (t : gmap string JsonNode) :
  foldl one_msg_cb (Some t) records = Some (foldl buffer t (FromHistory <$> records)).
Proof.
  revert t. induction records as [|r records IH]; intros t; [done|].
  csimpl. by rewrite one_msg_cb_buffer, IH.
Qed.

Lemma set_chats_insert_same (p : Z) (cxn : chime_connection) (chat : chime_chat) :
  chats cxn !! p = Some chat →
  set_chats (insert p (set_c_messages (c_messages chat) chat)) cxn = cxn.
Proof.
  intros Hp. destruct chat, cxn. unfold set_chats, set_c_messages. simpl in *.
  by rewrite insert_id.
Qed.




Lemma note_live_frame (p : Z) (t : gmap string JsonNode) (event : JsonNode)
    (cxn : chime_connection) :
  chats (note_live p t event cxn) = chats cxn ∧
  rooms_by_id (note_live p t event cxn) = rooms_by_id cxn ∧
  purple_log (note_live p t event cxn) = purple_log cxn ∧
  account_strings (note_live p t event cxn) = account_strings cxn ∧
  soup_queue (note_live p t event cxn) = soup_queue cxn ∧
  next_soup (note_live p t event cxn) = next_soup cxn ∧
  live_chats (note_live p t event cxn) = live_chats cxn ∧
  chat_id (note_live p t event cxn) = chat_id cxn ∧
  next_chat (note_live p t event cxn) = next_chat cxn ∧
  subscriptions (note_live p t event cxn) = subscriptions cxn.
Proof. unfold note_live. by destruct (arrival_entry (FromLive event)) as [[id n]|]. Qed.

(** The stored ids only grow. *)
Lemma buffer_dom (arrivals : list arrival) (t : gmap string JsonNode) :
  dom (foldl buffer t arrivals)
    = dom t ∪ list_to_set (omap (λ a, fst <$> arrival_entry a) arrivals).
Proof.
  induction arrivals as [|a arrivals IH] using rev_ind.
  - csimpl. by rewrite union_empty_r_L.
  - rewrite foldl_snoc, omap_app, list_to_set_app_L. csimpl. unfold buffer at 1.
    destruct (arrival_entry a) as [[id n]|]; csimpl.
    + rewrite dom_insert_L, IH, union_empty_r_L.
      rewrite (comm_L (∪) {[id]}). by rewrite (assoc_L (∪)).
    + by rewrite IH, union_empty_r_L.
Qed.



Section CatchUp.

Variable g_time_val_from_iso8601 : string -> option GTimeVal.
Variable g_hash_table_order : gmap string JsonNode -> list (string * JsonNode).
Hypothesis g_hash_table_order_perm : ∀ t, g_hash_table_order t ≡ₚ map_to_list t.

Local Abbreviation parsed_time := (parsed_time g_time_val_from_iso8601).
Local Abbreviation queued_msgs := (queued_msgs g_time_val_from_iso8601 g_hash_table_order).
Local Abbreviation delivery_of := (delivery_of g_time_val_from_iso8601).
Local Abbreviation delivery_of_queued := (delivery_of_queued g_time_val_from_iso8601).
Local Abbreviation chime_complete_chat_setup :=
  (chime_complete_chat_setup g_time_val_from_iso8601 g_hash_table_order).
Local Abbreviation chat_msg_cb := (chat_msg_cb g_time_val_from_iso8601).
Local Abbreviation fetch_msgs_cb := (fetch_msgs_cb g_time_val_from_iso8601 g_hash_table_order).
Local Abbreviation catch_up_step_run :=
  (catch_up_step_run g_time_val_from_iso8601 g_hash_table_order).
Local Abbreviation catch_up_run := (catch_up_run g_time_val_from_iso8601 g_hash_table_order).

(** The table of the model after a live event that reaches a fetching chat. *)
Lemma chat_msg_cb_buffer (now p : Z) (cxn : chime_connection) (chat : chime_chat)
    (t : gmap string JsonNode) (event : JsonNode) :
  chats cxn !! p = Some chat →
  c_messages chat = Some t →
  chat_msg_cb now p event cxn =
    Some (set_chats (insert p (set_c_messages (Some (buffer t (FromLive event))) chat))
            (note_live p t event cxn)).
Proof.
  intros Hp Ht. unfold chat_msg_cb, buffer, note_live. simpl.
  destruct (json_get_member event "record") as [record|]; simpl.
  - rewrite Hp. simpl. rewrite Ht.
    destruct (parse_string record "MessageId"); simpl; [done|].
    rewrite <- Ht. by rewrite set_chats_insert_same.
  - rewrite <- Ht. by rewrite set_chats_insert_same.
Qed.

(** The table of the model after a page that names a next one. *)
Lemma fetch_msgs_cb_next_page (now msg p : Z) (page : JsonNode) (tok : string)
    (cxn : chime_connection) (chat : chime_chat) (t : gmap string JsonNode)
    (room : chime_room) :
  chats cxn !! p = Some chat →
  c_messages chat = Some t →
  rooms_by_id cxn !! c_room chat = Some room →
  parse_string page "NextToken" = Some tok →
  ∃ cxn',
    fetch_msgs_cb now msg page p cxn = Some cxn' ∧
    chats cxn' =
      <[p := set_c_msgs_msg (Some (next_soup cxn))
               (set_c_messages
                  (Some (foldl buffer t
                           (FromHistory <$>
                              json_array_elements (json_get_member page "Messages"))))
                  chat)]> (chats cxn) ∧
    rooms_by_id cxn' = rooms_by_id cxn ∧
    purple_log cxn' = purple_log cxn ∧
    account_strings cxn' = account_strings cxn ∧
    subscriptions cxn' = subscriptions cxn ∧
    soup_queue cxn' =
      <[next_soup cxn :=
          {| req_path := "/rooms/" +:+ room_id room +:+ "/messages";
             req_query :=
               ("max-results", "50")
                 :: fetch_opts (purple_account_get_string cxn (last_msgs_key (room_id room)))
                      (Some tok);
             req_cb_data := p |}]> (soup_queue cxn).
Proof.
  intros Hp Ht Hroom Htok. unfold fetch_msgs_cb. rewrite Hp. simpl. rewrite Htok, Ht.
  unfold fetch_chat_messages. simpl. rewrite lookup_insert_eq. simpl. rewrite Hroom. simpl.
  eexists. split; [reflexivity|]. simpl. split_and!; try done.
  by rewrite insert_insert_eq, foldl_one_msg_cb_buffer.
Qed.

Lemma catch_up_run_cons (p : Z) (s : catch_up_step) (steps : list catch_up_step)
    (cxn : chime_connection) :
  catch_up_run p (s :: steps) cxn =
    match catch_up_step_run p s cxn with
    | Some c => catch_up_run p steps c
    | None => None
    end.
Proof.
  unfold catch_up_run. simpl.
  destruct (catch_up_step_run p s cxn); [done|].
  induction steps; [done|]. simpl. done.
Qed.

(** While the steps keep the chat fetching, only its table and its request
    change, and nothing is shown or written. *)
Lemma catch_up_run_fetching (p : Z) (steps : list catch_up_step) :
  ∀ (cxn : chime_connection) (chat : chime_chat) (t : gmap string JsonNode)
    (room : chime_room),
    chats cxn !! p = Some chat →
    c_messages chat = Some t →
    rooms_by_id cxn !! c_room chat = Some room →
    Forall keeps_fetching steps →
    ∃ cxn1 chat1,
      catch_up_run p steps cxn = Some cxn1 ∧
      chats cxn1 !! p = Some chat1 ∧
      c_messages chat1 = Some (foldl buffer t (steps ≫= step_arrivals)) ∧
      c_room chat1 = c_room chat ∧ c_conv chat1 = c_conv chat ∧
      rooms_by_id cxn1 = rooms_by_id cxn ∧
      purple_log cxn1 = purple_log cxn ∧
      account_strings cxn1 = account_strings cxn.
Proof.
  induction steps as [|s steps IH]; intros cxn chat t room Hp Ht Hroom Hsteps.
  - exists cxn, chat. by split_and!.
  - apply Forall_cons in Hsteps as [Hs Hsteps]. rewrite catch_up_run_cons. csimpl.
    rewrite foldl_app.
    destruct s as [now msg page | now event]; simpl in *.
    + destruct Hs as [tok Htok].
      destruct (fetch_msgs_cb_next_page now msg p page tok cxn chat t room Hp Ht Hroom Htok)
        as (cxn' & -> & Hchats & Hrooms & Hlog & Hacc & _).
      edestruct (IH cxn') as (cxn1 & chat1 & Hrun & Hp1 & Ht1 & Hr1 & Hc1 & Hrooms1 & Hlog1 & Hacc1);
        [by rewrite Hchats, lookup_insert_eq | reflexivity | by rewrite Hrooms | done |].
      exists cxn1, chat1. split_and!; try done; congruence.
    + rewrite (chat_msg_cb_buffer now p cxn chat t event Hp Ht).
      destruct (note_live_frame p t event cxn) as (Hchats & Hrooms & Hlog & Hacc & _).
      destruct (IH (set_chats
                      (insert p (set_c_messages (Some (buffer t (FromLive event))) chat))
                      (note_live p t event cxn))
                  (set_c_messages (Some (buffer t (FromLive event))) chat)
                  (buffer t (FromLive event)) room)
        as (cxn1 & chat1 & Hrun & Hp1 & Ht1 & Hr1 & Hc1 & Hrooms1 & Hlog1 & Hacc1);
        [simpl; apply lookup_insert_eq | done | by simpl; rewrite Hrooms | done |].
      exists cxn1, chat1. simpl in *. split_and!; try done; congruence.
Qed.


(** What the drain leaves alone. *)
Lemma chime_complete_chat_setup_frame (now p : Z) (cxn cxn' : chime_connection)
    (chat : chime_chat) :
  chats cxn !! p = Some chat →
  chime_complete_chat_setup now p cxn = Some cxn' →
  chats cxn' = <[p := set_c_messages None chat]> (chats cxn) ∧
  soup_queue cxn' = soup_queue cxn ∧ next_soup cxn' = next_soup cxn ∧
  subscriptions cxn' = subscriptions cxn ∧ rooms_by_id cxn' = rooms_by_id cxn ∧
  live_chats cxn' = live_chats cxn ∧ chat_id cxn' = chat_id cxn ∧
  next_chat cxn' = next_chat cxn.
Proof.
  intros Hp H.
  rewrite (chime_complete_chat_setup_spec g_time_val_from_iso8601 g_hash_table_order
             now p cxn chat Hp) in H.
  unfold note_last_msg in H.
  destruct (last (queued_msgs (c_messages chat))) as [ms|]; [|by injection H as <-].
  destruct (parse_string (node ms) "CreatedOn"); [|by injection H as <-].
  simpl in H. destruct (rooms_by_id cxn !! c_room chat); [|done].
  by injection H as <-.
Qed.




End CatchUp.

(** ** The history requests *)

Lemma elem_of_fetch_opts_after (after next_token : option string) (a : string) :
  ("after", a) ∈ ("max-results", "50") :: fetch_opts after next_token ↔ after = Some a ∧ a ≠ "".
Proof.
  unfold fetch_opts.
  destruct after as [w|]; [destruct (decide (w = ""))|]; destruct next_token as [tok|];
    rewrite ?elem_of_cons, ?elem_of_app, ?elem_of_cons, ?elem_of_nil;
    intuition (simplify_eq; auto).
Qed.

Lemma elem_of_fetch_opts_token (after next_token : option string) (tok : string) :
  ("next-token", tok) ∈ ("max-results", "50") :: fetch_opts after next_token
    ↔ next_token = Some tok.
Proof.
  unfold fetch_opts.
  destruct after as [w|]; [destruct (decide (w = ""))|]; destruct next_token as [tok'|];
    rewrite ?elem_of_cons, ?elem_of_app, ?elem_of_cons, ?elem_of_nil;
    intuition (simplify_eq; auto).
Qed.

(** C6, as the code has it.  Every history request, the first one and each
    one issued with a continuation token, carries ["after"] exactly when the
    account holds a non-empty watermark for the room, and ["next-token"]
    exactly when a token is given; a page with a NextToken leaves the
    watermark as it was and issues the next request with that token. *)
Theorem after_on_every_page (p : Z) (next_token : option string) (cxn : chime_connection)
    (chat : chime_chat) (room : chime_room) :
  chats cxn !! p = Some chat →
  rooms_by_id cxn !! c_room chat = Some room →
  (∃ cxn' req,
    fetch_chat_messages p next_token cxn = Some cxn' ∧
    soup_queue cxn' !! next_soup cxn = Some req ∧
    chats cxn' !! p = Some (set_c_msgs_msg (Some (next_soup cxn)) chat) ∧
    account_strings cxn' = account_strings cxn ∧
    req_query req =
      ("max-results", "50")
        :: fetch_opts (purple_account_get_string cxn (last_msgs_key (room_id room))) next_token ∧
    (∀ a, ("after", a) ∈ req_query req ↔
          purple_account_get_string cxn (last_msgs_key (room_id room)) = Some a ∧ a ≠ "") ∧
    (∀ tok, ("next-token", tok) ∈ req_query req ↔ next_token = Some tok)) ∧
  (∀ parse order now msg page tok,
    parse_string page "NextToken" = Some tok →
    ∃ cxn1,
      fetch_msgs_cb parse order now msg page p cxn = fetch_chat_messages p (Some tok) cxn1 ∧
      account_strings cxn1 = account_strings cxn ∧
      rooms_by_id cxn1 = rooms_by_id cxn ∧
      is_Some (chats cxn1 !! p)).
Proof.
  intros Hp Hroom. split.
  - unfold fetch_chat_messages. rewrite Hp. simpl. rewrite Hroom. simpl.
    eexists _, _. split; [done|]. split; [simpl; apply lookup_insert_eq|].
    split; [simpl; apply lookup_insert_eq|]. split_and!; [done | done | |].
    + intros a. apply elem_of_fetch_opts_after.
    + intros tok. apply elem_of_fetch_opts_token.
  - intros parse order now msg page tok Htok.
    unfold fetch_msgs_cb. rewrite Hp. simpl. rewrite Htok.
    eexists. split; [reflexivity|].
    destruct (c_messages chat); (split_and!; [done | done |]);
      simpl; rewrite lookup_insert_eq; by eexists.
Qed.

(** ** Join *)

(** C7. A join for a room id that is unknown, or whose room already has a
    chat, returns without fault and leaves the whole connection as it was:
    no chat is allocated, no id is taken, nothing is subscribed or
    requested, and the chat of the room stays the one it had. *)
Theorem join_twice_is_noop (data : gmap string string) (cxn : chime_connection)
    (roomid : string) :
  data !! "RoomId" = Some roomid →
  (rooms_by_id cxn !! roomid = None ∨
   ∃ room chat, rooms_by_id cxn !! roomid = Some room ∧ room_chat room = Some chat) →
  chime_purple_join_chat data cxn = Some cxn.
Proof.
  intros Hid Hroom. unfold chime_purple_join_chat. rewrite Hid. simpl.
  destruct Hroom as [-> | (room & chat & -> & ->)]; done.
Qed.

(** ** Leave *)

(** What [chime_destroy_chat] does to the tables of the connection. *)
Lemma chime_destroy_chat_result (p : Z) (cxn cxn' : chime_connection) :
  chime_destroy_chat p cxn = Some cxn' →
  ∃ chat room,
    chats cxn !! p = Some chat ∧
    rooms_by_id cxn !! c_room chat = Some room ∧
    subscriptions cxn' =
      chime_jugg_unsubscribe (room_channel room) chat_msg_cb_ptr (RoomData (c_room chat))
        (subscriptions cxn) ∧
    live_chats cxn' = delete (GUINT_TO_POINTER (room_id_addr room)) (live_chats cxn) ∧
    chats cxn' = delete p (chats cxn) ∧
    rooms_by_id cxn' = <[c_room chat := set_room_chat None room]> (rooms_by_id cxn) ∧
    account_strings cxn' = account_strings cxn ∧
    (∀ m, c_msgs_msg chat = Some m → soup_queue cxn' !! m = None).
Proof.
  unfold chime_destroy_chat. intros H.
  destruct (chats cxn !! p) as [chat|] eqn:Hp; [|done]. simpl in H.
  destruct (rooms_by_id cxn !! c_room chat) as [room|] eqn:Hroom; [|done]. simpl in H.
  destruct (room_chat room) as [q|]; [|done]. simpl in H.
  destruct (chats cxn !! q) as [chat'|]; [|done]. simpl in H.
  injection H as <-. exists chat, room.
  destruct (c_msgs_msg chat) as [m|], (c_members_msg chat) as [m'|]; simpl;
    split_and!; try done; intros ? [= <-].
  - destruct (decide (m' = m)) as [->|]; [by rewrite lookup_delete_eq|].
    by rewrite lookup_delete_ne, lookup_delete_eq.
  - by rewrite lookup_delete_eq.
Qed.

(** Teardown names the room where join named the chat: a subscription whose
    data is a chat outlives every [chime_destroy_chat]. *)
Lemma chime_destroy_chat_keeps_chat_subscriptions (p q : Z) (cxn cxn' : chime_connection)
    (s : jugg_subscription) :
  chime_destroy_chat p cxn = Some cxn' →
  s ∈ subscriptions cxn → sub_cb_data s = ChatData q →
  s ∈ subscriptions cxn'.
Proof.
  intros (chat & room & _ & _ & -> & _)%chime_destroy_chat_result Hs Hq.
  unfold chime_jugg_unsubscribe. apply list_elem_of_filter. split; [|done].
  intros ->. discriminate.
Qed.

(** Teardown removes the key made from the address of the room id: an entry
    of [live_chats] under any other key stays. *)
Lemma chime_destroy_chat_keeps_live_chats (p k : Z) (cxn cxn' : chime_connection) :
  chime_destroy_chat p cxn = Some cxn' →
  (∀ chat room, chats cxn !! p = Some chat → rooms_by_id cxn !! c_room chat = Some room →
                k ≠ GUINT_TO_POINTER (room_id_addr room)) →
  live_chats cxn' !! k = live_chats cxn !! k.
Proof.
  intros (chat & room & Hp & Hroom & _ & -> & _)%chime_destroy_chat_result Hk.
  apply lookup_delete_ne. intros <-. by eapply Hk.
Qed.

(** * The properties on concrete sessions *)

Lemma table_order_perm (t : gmap string JsonNode) : table_order t ≡ₚ map_to_list t.
Proof. done. Qed.


(** A live event that arrives while the history is fetched is stored as the
    whole event, whose CreatedOn sits inside its record: the drain leaves it
    out, and it is not shown. *)
Remark live_event_during_catch_up_not_shown :
  (λ c, delivered_ids (purple_log c)) <$>
    session_run iso8601_utc table_order
      [(1493632900, EvJoin join_r1);
       (1493632901, EvLive "room-r1" (live_event msg_e));
       (1493632902, EvPage 0 (history_page [msg_a; msg_b] None))]
      cxn0
  = Some ["b"; "a"].
Proof. vm_compute. reflexivity. Qed.


(** C3 fails as stated: [msg_c] is stored and its CreatedOn parses, it is
    the last record of the batch, and it is not among the records the drain
    delivers, for it has no Content. *)
Lemma stored_record_without_content_not_delivered :
  table_abcd !! "c" = Some msg_c ∧
  parsed_time iso8601_utc msg_c = Some {| tv_sec := 1493632820; tv_usec := 0 |} ∧
  node <$> queued_msgs iso8601_utc table_order (Some table_abcd) = [msg_b; msg_a; msg_c] ∧
  (λ c, delivered_nodes (drop (length (purple_log cxn_fetching)) (purple_log c))) <$>
    chime_complete_chat_setup iso8601_utc table_order 1493633000 4096 cxn_fetching
  = Some [msg_b; msg_a].
Proof. split_and!; vm_compute; reflexivity. Qed.

(** The keys of the table on three arrivals of id ["a"] after the join: in
    one page, the key of the first record lives until the page is released
    and no freed key is met; over two pages, the second arrival frees the
    node of the key and the third meets it.  Two ids of one hash. *)
Remark third_arrival_across_pages_meets_freed_key :
  dangling_key_read <$>
    catch_up_run iso8601_utc table_order 4096
      [PageStep 1493632901 0 (history_page [msg_a; msg_a_again; msg_a] (Some "X"))]
      cxn_joined = Some false ∧
  dangling_key_read <$>
    catch_up_run iso8601_utc table_order 4096
      [PageStep 1493632901 0 (history_page [msg_a] (Some "X"));
       PageStep 1493632902 1 (history_page [msg_a_again; msg_a] (Some "Y"))]
      cxn_joined = Some true ∧
  stored_hash "Aa" = stored_hash "B@".
Proof. split_and!; vm_compute; reflexivity. Qed.

(** C9 fails as stated: [msg_d], whose CreatedOn does not parse, is dropped
    from the batch of the fetching chat, and of the other stored records
    [msg_c], whose CreatedOn parses, is sorted into the batch and not
    delivered, for it has no Content. *)
Lemma other_record_sorted_and_not_delivered :
  table_abcd !! "d" = Some msg_d ∧
  parsed_time iso8601_utc msg_d = None ∧
  table_abcd !! "c" = Some msg_c ∧
  msg_c ≠ msg_d ∧
  is_Some (parsed_time iso8601_utc msg_c) ∧
  msg_c ∈ (node <$> queued_msgs iso8601_utc table_order (Some table_abcd)) ∧
  ∃ cxn',
    chime_complete_chat_setup iso8601_utc table_order 1493633000 4096 cxn_fetching
      = Some cxn' ∧
    delivered_nodes (drop (length (purple_log cxn_fetching)) (purple_log cxn'))
      = [msg_b; msg_a] ∧
    msg_c ∉ delivered_nodes (drop (length (purple_log cxn_fetching)) (purple_log cxn')).
Proof.
  split_and!; try (vm_compute; reflexivity).
  - discriminate.
  - by eexists.
  - assert (H : node <$> queued_msgs iso8601_utc table_order (Some table_abcd)
                = [msg_b; msg_a; msg_c]) by (vm_compute; reflexivity).
    rewrite H. set_solver.
  - exists cxn_drained. split; [vm_compute; reflexivity|].
    assert (H : delivered_nodes (drop (length (purple_log cxn_fetching))
                                   (purple_log cxn_drained))
                = [msg_b; msg_a]) by (vm_compute; reflexivity).
    rewrite H. split; [done|].
    intros Hin. apply elem_of_cons in Hin as [Hin|Hin]; [discriminate|].
    apply elem_of_cons in Hin as [Hin|Hin]; [discriminate|].
    by apply elem_of_nil in Hin.
Qed.

(** C4 fails as stated: the last record delivered is [msg_a], of
    10:00:10, and the watermark is the CreatedOn of [msg_c], of 10:00:20,
    the last record of the batch, which has no Content. *)
Lemma watermark_not_of_last_delivered :
  (λ c, (last (delivered_nodes (purple_log c)) ≫= (λ n, parse_string n "CreatedOn"),
         purple_account_get_string c (last_msgs_key "r1"))) <$>
    session_run iso8601_utc table_order
      [(1493632900, EvJoin join_r1);
       (1493632901, EvPage 0 (history_page [msg_a; msg_c] None))]
      cxn0
  = Some (Some "2017-05-01T10:00:10.000Z", Some "2017-05-01T10:00:20.000Z").
Proof. vm_compute. reflexivity. Qed.

(** C6 fails as stated: with a watermark in the account, the request for
    the second page, issued with the token of the first, carries ["after"]
    as well. *)
Lemma second_page_request_has_after :
  (λ c, req_query <$> soup_queue c !! 1) <$>
    session_run iso8601_utc table_order
      [(1493632900, EvJoin join_r1);
       (1493632901, EvPage 0 (history_page [msg_b] (Some "X")))]
      cxn0_watermark
  = Some (Some [("max-results", "50"); ("after", "2017-05-01T09:00:00.000Z");
                ("next-token", "X")]).
Proof. vm_compute. reflexivity. Qed.

(** C5 on a session: after join and leave the request is gone from the
    queue and the chat is freed, but the subscription made at join, whose
    data is the chat, is still there (line 95 names the room); the next
    event of the channel runs [chat_msg_cb] on the freed chat. *)
Theorem leave_keeps_live_subscription :
  (λ c, (subscriptions c, chats c !! 4096, soup_queue c !! 0)) <$>
    session_run iso8601_utc table_order
      [(1493632900, EvJoin join_r1); (1493632901, EvLeave 1)] cxn0
  = Some ([{| sub_channel := "room-r1"; sub_cb := chat_msg_cb_ptr;
              sub_cb_data := ChatData 4096 |}], None, None) ∧
  session_run iso8601_utc table_order
    [(1493632900, EvJoin join_r1); (1493632901, EvLeave 1);
     (1493632950, EvLive "room-r1" (live_event msg_a))] cxn0
  = None.
Proof. split; vm_compute; reflexivity. Qed.

(** C8 on a session: leave before any page.  The request is cancelled,
    nothing is shown, no watermark is written, the chat is freed and the
    room has no chat; but [live_chats] still maps chat id 1 to the freed
    chat, because line 98 removes the key made from the address of the room
    id string. *)
Theorem leave_keeps_live_chats_entry :
  (λ c, (live_chats c !! GUINT_TO_POINTER 1, chats c !! 4096,
         room_chat <$> rooms_by_id c !! "r1", soup_queue c !! 0,
         account_strings c !! last_msgs_key "r1", delivered_ids (purple_log c))) <$>
    session_run iso8601_utc table_order
      [(1493632900, EvJoin join_r1); (1493632901, EvLeave 1)] cxn0
  = Some (Some 4096, None, Some None, None, None, []).
Proof. vm_compute. reflexivity. Qed.

(** ** The theorems at the fetching chat of the examples *)

Lemma cxn_fetching_chat : chats cxn_fetching !! 4096 = Some chat_fetching.
Proof. vm_compute. reflexivity. Qed.

Lemma cxn_fetching_room : rooms_by_id cxn_fetching !! c_room chat_fetching = Some room_r1_joined.
Proof. vm_compute. reflexivity. Qed.

(** The drain of the fetching chat: sorted, with [msg_c] in the batch. *)
Lemma drain_sorted_by_created_on_witness :
  chats cxn_fetching !! 4096 = Some chat_fetching ∧
  c_messages chat_fetching = Some table_abcd ∧
  rooms_by_id cxn_fetching !! c_room chat_fetching = Some room_r1_joined ∧
  StronglySorted ms_le (shown_of (queued_msgs iso8601_utc table_order (Some table_abcd))) ∧
  ms_c ∈ queued_msgs iso8601_utc table_order (Some table_abcd).
Proof.
  assert (H1 : chats cxn_fetching !! 4096 = Some chat_fetching) by (vm_compute; reflexivity).
  assert (H2 : c_messages chat_fetching = Some table_abcd) by reflexivity.
  assert (H3 : rooms_by_id cxn_fetching !! c_room chat_fetching = Some room_r1_joined)
    by (vm_compute; reflexivity).
  destruct (drain_sorted_by_created_on iso8601_utc table_order table_order_perm
              1493633000 4096 cxn_fetching chat_fetching table_abcd room_r1_joined H1 H2 H3)
    as (cxn' & _ & _ & _ & Hall & _ & _ & Hsorted & _).
  split_and!; [exact H1 | exact H2 | exact H3 | exact Hsorted |].
  apply (Hall "c" msg_c {| tv_sec := 1493632820; tv_usec := 0 |}); vm_compute; reflexivity.
Defined.

(** The drain of the fetching chat writes the CreatedOn of [msg_c]. *)
Lemma watermark_from_last_of_batch_witness :
  chats cxn_fetching !! 4096 = Some chat_fetching ∧
  c_messages chat_fetching = Some table_abcd ∧
  rooms_by_id cxn_fetching !! c_room chat_fetching = Some room_r1_joined ∧
  ∃ cxn',
    chime_complete_chat_setup iso8601_utc table_order 1493633000 4096 cxn_fetching = Some cxn' ∧
    purple_account_get_string cxn' (last_msgs_key "r1") = Some "2017-05-01T10:00:20.000Z".
Proof.
  assert (H1 : chats cxn_fetching !! 4096 = Some chat_fetching) by (vm_compute; reflexivity).
  assert (H2 : c_messages chat_fetching = Some table_abcd) by reflexivity.
  assert (H3 : rooms_by_id cxn_fetching !! c_room chat_fetching = Some room_r1_joined)
    by (vm_compute; reflexivity).
  destruct (watermark_from_last_of_batch iso8601_utc table_order table_order_perm
              1493633000 4096 cxn_fetching chat_fetching table_abcd room_r1_joined H1 H2 H3)
    as (cxn' & Hrun & Hw).
  split_and!; [exact H1 | exact H2 | exact H3 |].
  exists cxn'. split; [exact Hrun|].
  assert (Hlast : last (queued_msgs iso8601_utc table_order (Some table_abcd)) = Some ms_c)
    by (vm_compute; reflexivity).
  rewrite Hlast in Hw. destruct Hw as (s & Hs & _ & _ & Hget & _).
  assert (s = "2017-05-01T10:00:20.000Z") as <-; [|exact Hget].
  vm_compute in Hs. congruence.
Defined.

(** [msg_anon] is not stored, and [msg_d] is left out of the batch. *)
Lemma malformed_records_dropped_witness :
  chats cxn_fetching !! 4096 = Some chat_fetching ∧
  c_messages chat_fetching = Some table_abcd ∧
  rooms_by_id cxn_fetching !! c_room chat_fetching = Some room_r1_joined ∧
  one_msg_cb (Some table_abcd) msg_anon = Some table_abcd ∧
  (msg_d ∉ (node <$> queued_msgs iso8601_utc table_order (Some table_abcd))) ∧
  ms_a ∈ shown_of (queued_msgs iso8601_utc table_order (Some table_abcd)).
Proof.
  assert (H1 : chats cxn_fetching !! 4096 = Some chat_fetching) by (vm_compute; reflexivity).
  assert (H2 : c_messages chat_fetching = Some table_abcd) by reflexivity.
  assert (H3 : rooms_by_id cxn_fetching !! c_room chat_fetching = Some room_r1_joined)
    by (vm_compute; reflexivity).
  destruct (malformed_records_dropped iso8601_utc table_order table_order_perm
              1493633000 4096 cxn_fetching chat_fetching table_abcd room_r1_joined H1 H2 H3)
    as (Hone & _ & cxn' & _ & Hdrop & _ & _ & _ & _ & Hshown & _).
  split_and!; [exact H1 | exact H2 | exact H3 | | |].
  - apply Hone. reflexivity.
  - apply (Hdrop "d" msg_d); vm_compute; reflexivity.
  - apply (Hshown "a" msg_a); [vm_compute; reflexivity | vm_compute; reflexivity |].
    eexists. vm_compute. reflexivity.
Defined.

(** [msg_c], last of the batch, is not shown and gives the watermark. *)
Lemma watermark_from_undelivered_record_witness :
  chats cxn_fetching !! 4096 = Some chat_fetching ∧
  c_messages chat_fetching = Some table_abcd ∧
  rooms_by_id cxn_fetching !! c_room chat_fetching = Some room_r1_joined ∧
  last (queued_msgs iso8601_utc table_order (Some table_abcd)) = Some ms_c ∧
  parse_string (node ms_c) "Content" = None ∧
  ∃ cxn',
    chime_complete_chat_setup iso8601_utc table_order 1493633000 4096 cxn_fetching = Some cxn' ∧
    (msg_c ∉ delivered_nodes (drop (length (purple_log cxn_fetching)) (purple_log cxn'))) ∧
    purple_account_get_string cxn' (last_msgs_key "r1") = Some "2017-05-01T10:00:20.000Z".
Proof.
  assert (H1 : chats cxn_fetching !! 4096 = Some chat_fetching) by (vm_compute; reflexivity).
  assert (H2 : c_messages chat_fetching = Some table_abcd) by reflexivity.
  assert (H3 : rooms_by_id cxn_fetching !! c_room chat_fetching = Some room_r1_joined)
    by (vm_compute; reflexivity).
  assert (H4 : last (queued_msgs iso8601_utc table_order (Some table_abcd)) = Some ms_c)
    by (vm_compute; reflexivity).
  assert (H5 : parse_string (node ms_c) "Content" = None) by reflexivity.
  destruct (watermark_from_undelivered_record iso8601_utc table_order table_order_perm
              1493633000 4096 cxn_fetching chat_fetching table_abcd room_r1_joined ms_c
              H1 H2 H3 H4 H5)
    as (_ & _ & cxn' & s & Hrun & Hnot & Hs & Hget).
  split_and!; [exact H1 | exact H2 | exact H3 | exact H4 | exact H5 |].
  exists cxn'. split_and!; [exact Hrun | apply Hnot; reflexivity |].
  assert (s = "2017-05-01T10:00:20.000Z") as <-; [|exact Hget].
  vm_compute in Hs. congruence.
Defined.



(** A further request of the fetching chat, whose account has no watermark. *)
Lemma after_on_every_page_witness :
  chats cxn_fetching !! 4096 = Some chat_fetching ∧
  rooms_by_id cxn_fetching !! c_room chat_fetching = Some room_r1_joined ∧
  ∃ cxn' req,
    fetch_chat_messages 4096 (Some "Y") cxn_fetching = Some cxn' ∧
    soup_queue cxn' !! next_soup cxn_fetching = Some req ∧
    req_query req = [("max-results", "50"); ("next-token", "Y")].
Proof.
  assert (H1 : chats cxn_fetching !! 4096 = Some chat_fetching) by (vm_compute; reflexivity).
  assert (H3 : rooms_by_id cxn_fetching !! c_room chat_fetching = Some room_r1_joined)
    by (vm_compute; reflexivity).
  destruct (after_on_every_page 4096 (Some "Y") cxn_fetching chat_fetching room_r1_joined H1 H3)
    as ((cxn' & req & Hrun & Hq & _ & _ & Hquery & _) & _).
  split_and!; [exact H1 | exact H3 |].
  exists cxn', req. split_and!; [exact Hrun | exact Hq |].
  rewrite Hquery. vm_compute. reflexivity.
Defined.

(** A second join of the room of the fetching chat. *)
Lemma join_twice_is_noop_witness :
  join_r1 !! "RoomId" = Some "r1" ∧
  (∃ room chat, rooms_by_id cxn_fetching !! "r1" = Some room ∧ room_chat room = Some chat) ∧
  chime_purple_join_chat join_r1 cxn_fetching = Some cxn_fetching.
Proof.
  assert (H1 : join_r1 !! "RoomId" = Some "r1") by (vm_compute; reflexivity).
  assert (H2 : ∃ room chat,
             rooms_by_id cxn_fetching !! "r1" = Some room ∧ room_chat room = Some chat).
  { exists room_r1_joined, 4096. split; vm_compute; reflexivity. }
  split_and!; [exact H1 | exact H2 |].
  apply (join_twice_is_noop join_r1 cxn_fetching "r1" H1). right. exact H2.
Defined.

(** * Further properties of chat.c *)

(** ** Where [g_list_insert_sorted] puts a record *)

Lemma filter_all {A} (P : A → Prop) `{!∀ x, Decision (P x)} (l : list A) :
  Forall P l → filter P l = l.
Proof.
  induction 1 as [|x l Hx _ IH]; [done|]. by rewrite filter_cons_True, IH.
Qed.

Lemma filter_none {A} (P : A → Prop) `{!∀ x, Decision (P x)} (l : list A) :
  Forall (λ x, ¬ P x) l → filter P l = [].
Proof.
  induction 1 as [|x l Hx _ IH]; [done|]. by rewrite filter_cons_False.
Qed.

(** Lines 116-127 with line 142.  In a sorted list the new record lands
    behind every record that is strictly earlier and in front of every
    record of the same or a later time: among records of one time, the one
    inserted last comes first. *)
Theorem g_list_insert_sorted_position (l : list msg_sort) (d : msg_sort) :
  StronglySorted ms_le l →
  g_list_insert_sorted l d compare_ms
    = filter (λ x, ¬ ms_le d x) l ++ d :: filter (λ x, ms_le d x) l.
Proof.
  induction 1 as [|x l Hl IH Hx]; [done|]. simpl.
  destruct (compare_ms d x >? 0) eqn:E.
  - apply compare_ms_pos in E.
    rewrite filter_cons_True, filter_cons_False by tauto. simpl. by rewrite IH.
  - apply compare_ms_nonpos in E.
    assert (Hall : Forall (ms_le d) (x :: l)).
    { constructor; [done|]. eapply Forall_impl; [exact Hx|].
      intros y Hy. by eapply ms_le_trans. }
    rewrite (filter_all (ms_le d)) by done.
    rewrite (filter_none (λ y, ¬ ms_le d y)); [done|].
    eapply Forall_impl; [exact Hall|]. tauto.
Qed.

(** Two sorted lists with the same elements are the same list when no two
    different elements are each before the other. *)
Lemma sorted_perm_eq {A} (R : A → A → Prop) (l1 l2 : list A) :
  StronglySorted R l1 → StronglySorted R l2 → l1 ≡ₚ l2 →
  (∀ x y, x ∈ l1 → y ∈ l1 → R x y → R y x → x = y) →
  l1 = l2.
Proof.
  intros H1. revert l2. induction H1 as [|x l1 Hl1 IH Hx]; intros l2 H2 Hperm Hanti.
  - by apply Permutation_nil_l in Hperm.
  - destruct H2 as [|y l2 Hl2 Hy].
    { by apply Permutation_nil_r in Hperm. }
    assert (x = y) as <-.
    { assert (Hxin : x ∈ y :: l2) by (rewrite <- Hperm; left).
      assert (Hyin : y ∈ x :: l1) by (rewrite Hperm; left).
      apply elem_of_cons in Hxin as [?|Hxin]; [done|].
      apply elem_of_cons in Hyin as [?|Hyin]; [done|].
      rewrite Forall_forall in Hx, Hy.
      apply Hanti; [left | by right | by apply Hx | by apply Hy]. }
    f_equal. apply IH; [done | by eapply Permutation_cons_inv | ].
    intros a b Ha Hb. apply Hanti; by right.
Qed.

Lemma ms_le_antisym_tm (x y : msg_sort) : ms_le x y → ms_le y x → tm x = tm y.
Proof.
  unfold ms_le, tv_le. destruct (tm x) as [s1 u1], (tm y) as [s2 u2]. simpl.
  intros Hxy Hyx. f_equal; lia.
Qed.

Lemma to_int_in_range (z : Z) : - 2 ^ 31 <= z < 2 ^ 31 → to_int z = z.
Proof. intros Hz. unfold to_int. rewrite Z.mod_small; lia. Qed.

Lemma omap_ext_in {A B} (f g : A → option B) (l : list A) :
  (∀ x, x ∈ l → f x = g x) → omap f l = omap g l.
Proof.
  induction l as [|x l IH]; intros Hfg; [done|]. csimpl.
  rewrite (Hfg x) by left. rewrite IH; [done|]. intros y Hy. apply Hfg. by right.
Qed.

(** ** The batch does not depend on the visiting order *)

Section OrderIndependence.

Variable g_time_val_from_iso8601 : string -> option GTimeVal.
Variables order1 order2 : gmap string JsonNode -> list (string * JsonNode).
Hypothesis order1_perm : ∀ t, order1 t ≡ₚ map_to_list t.
Hypothesis order2_perm : ∀ t, order2 t ≡ₚ map_to_list t.

(** Lines 116-145 and 152.  When no two stored records have the same parsed
    CreatedOn, the sorted batch is the same whatever the order in which the
    table is visited: the times alone decide the order of delivery. *)
Theorem queued_msgs_order_independent (t : gmap string JsonNode) :
  (∀ k1 k2 v1 v2 tv,
     t !! k1 = Some v1 → t !! k2 = Some v2 →
     parsed_time g_time_val_from_iso8601 v1 = Some tv →
     parsed_time g_time_val_from_iso8601 v2 = Some tv → k1 = k2) →
  queued_msgs g_time_val_from_iso8601 order1 (Some t)
    = queued_msgs g_time_val_from_iso8601 order2 (Some t).
Proof.
  intros Hdistinct. apply (sorted_perm_eq ms_le).
  - apply queued_msgs_sorted.
  - apply queued_msgs_sorted.
  - rewrite (queued_msgs_perm _ _ order1_perm), (queued_msgs_perm _ _ order2_perm). done.
  - intros x y Hx Hy Hxy Hyx.
    apply (elem_of_queued_msgs _ _ order1_perm) in Hx as (k1 & Hk1 & Hp1).
    apply (elem_of_queued_msgs _ _ order1_perm) in Hy as (k2 & Hk2 & Hp2).
    pose proof (ms_le_antisym_tm x y Hxy Hyx) as Htm.
    rewrite <- Htm in Hp2.
    assert (k1 = k2) as <- by (by eapply Hdistinct).
    destruct x, y. simpl in *. congruence.
Qed.

End OrderIndependence.

(** ** The times a message is shown with *)

Section Times.

Variable g_time_val_from_iso8601 : string -> option GTimeVal.
Variable g_hash_table_order : gmap string JsonNode -> list (string * JsonNode).
Hypothesis g_hash_table_order_perm : ∀ t, g_hash_table_order t ≡ₚ map_to_list t.

Local Abbreviation parsed_time := (parsed_time g_time_val_from_iso8601).
Local Abbreviation queued_msgs := (queued_msgs g_time_val_from_iso8601 g_hash_table_order).
Local Abbreviation delivery_of := (delivery_of g_time_val_from_iso8601).
Local Abbreviation delivery_of_queued := (delivery_of_queued g_time_val_from_iso8601).
Local Abbreviation chime_complete_chat_setup :=
  (chime_complete_chat_setup g_time_val_from_iso8601 g_hash_table_order).
Local Abbreviation chat_msg_cb := (chat_msg_cb g_time_val_from_iso8601).

Lemma delivery_of_queued_time (now : Z) (chat : chime_chat) (ms : msg_sort) :
  parsed_time (node ms) = Some (tm ms) →
  delivery_of_queued now chat ms =
    c ← parse_string (node ms) "Content";
    Some (serv_got_chat_in (conv_chat_id (c_conv chat)) "someone" c
            (to_int (tv_sec (tm ms))) (node ms)).
Proof.
  intros Hp. unfold delivery_of_queued, delivery_of. rewrite Hp.
  destruct (parse_string (node ms) "Content"); simpl; [|done].
  by destruct (to_int (tv_sec (tm ms)) =? 0).
Qed.

(** Lines 41-51 with 156-159.  The drain never uses the clock: each record
    it shows carries the seconds of its own parsed CreatedOn, cut to an
    int (the seconds themselves when they fit an int), so the drain gives
    the same connection at any clock reading. *)
Theorem drain_shows_created_on_seconds (now p : Z) (cxn : chime_connection)
    (chat : chime_chat) (t : gmap string JsonNode) (room : chime_room) :
  chats cxn !! p = Some chat →
  c_messages chat = Some t →
  rooms_by_id cxn !! c_room chat = Some room →
  ∃ cxn',
    chime_complete_chat_setup now p cxn = Some cxn' ∧
    purple_log cxn' =
      purple_log cxn ++
      omap (λ ms, c ← parse_string (node ms) "Content";
                  Some (serv_got_chat_in (conv_chat_id (c_conv chat)) "someone" c
                          (to_int (tv_sec (tm ms))) (node ms)))
        (queued_msgs (Some t)) ∧
    Forall (λ ms, parsed_time (node ms) = Some (tm ms) ∧
                  (- 2 ^ 31 <= tv_sec (tm ms) < 2 ^ 31 →
                   to_int (tv_sec (tm ms)) = tv_sec (tm ms)))
      (queued_msgs (Some t)) ∧
    ∀ now', chime_complete_chat_setup now' p cxn = Some cxn'.
Proof.
  intros Hp Ht Hroom.
  assert (Hext : ∀ n, omap (delivery_of_queued n chat) (queued_msgs (Some t)) =
                 omap (λ ms, c ← parse_string (node ms) "Content";
                             Some (serv_got_chat_in (conv_chat_id (c_conv chat)) "someone" c
                                     (to_int (tv_sec (tm ms))) (node ms)))
                   (queued_msgs (Some t))).
  { intros n. apply omap_ext_in. intros ms Hms. apply delivery_of_queued_time.
    by apply (elem_of_queued_msgs _ _ g_hash_table_order_perm) in Hms as (_ & _ & ?). }
  destruct (chime_complete_chat_setup_result g_time_val_from_iso8601 g_hash_table_order
              now p cxn chat room Hp Hroom)
    as (cxn' & Hrun & Hlog & _ & _).
  rewrite Ht, Hext in Hlog.
  exists cxn'. split_and!; [done | done | |].
  - apply Forall_forall. intros ms Hms. split; [|apply to_int_in_range].
    by apply (elem_of_queued_msgs _ _ g_hash_table_order_perm) in Hms as (_ & _ & ?).
  - intros now'. rewrite <- Hrun.
    rewrite !(chime_complete_chat_setup_spec g_time_val_from_iso8601 g_hash_table_order
                _ p cxn chat Hp), Ht.
    by rewrite !Hext.
Qed.

(** Lines 60-78 with 41-57.  Once the chat is live, an event whose record
    has a Content is shown with the clock reading of its arrival, cut to an
    int, and not with its CreatedOn (unless that reading is 0). *)
Theorem live_message_shown_with_arrival_time (now p : Z) (cxn : chime_connection)
    (chat : chime_chat) (event record : JsonNode) (content : string) :
  chats cxn !! p = Some chat →
  c_messages chat = None →
  json_get_member event "record" = Some record →
  parse_string record "Content" = Some content →
  to_int now ≠ 0 →
  chat_msg_cb now p event cxn =
    Some (set_purple_log
            (λ log, log ++ [serv_got_chat_in (conv_chat_id (c_conv chat)) "someone" content
                              (to_int now) record]) cxn).
Proof.
  intros Hp Hm Hrec Hc Hnow. unfold chat_msg_cb. rewrite Hrec, Hp. simpl. rewrite Hm.
  unfold chat_deliver_msg. rewrite Hc.
  destruct (Z.eqb_spec (to_int now) 0); [done | done].
Qed.

End Times.

(** ** Buffering while the history is fetched *)



Section Buffering.

Variable g_time_val_from_iso8601 : string -> option GTimeVal.
Variable g_hash_table_order : gmap string JsonNode -> list (string * JsonNode).
Hypothesis g_hash_table_order_perm : ∀ t, g_hash_table_order t ≡ₚ map_to_list t.

Local Abbreviation parsed_time := (parsed_time g_time_val_from_iso8601).
Local Abbreviation queued_msgs := (queued_msgs g_time_val_from_iso8601 g_hash_table_order).
Local Abbreviation delivery_of_queued := (delivery_of_queued g_time_val_from_iso8601).
Local Abbreviation chime_complete_chat_setup :=
  (chime_complete_chat_setup g_time_val_from_iso8601 g_hash_table_order).
Local Abbreviation chat_msg_cb := (chat_msg_cb g_time_val_from_iso8601).
Local Abbreviation fetch_msgs_cb := (fetch_msgs_cb g_time_val_from_iso8601 g_hash_table_order).
Local Abbreviation catch_up_run := (catch_up_run g_time_val_from_iso8601 g_hash_table_order).

(** Lines 60-78.  A live event changes nothing but the table of its chat
    (while fetching) or the calls to libpurple (once live): it writes no
    watermark, queues no request, takes no chat id, touches no room, no
    subscription and no other chat; while the chat is fetching nothing is
    shown and the chat stays fetching, and once live the chats are left as
    they are. *)
Theorem chat_msg_cb_frame (now p : Z) (event : JsonNode) (cxn cxn' : chime_connection) :
  chat_msg_cb now p event cxn = Some cxn' →
  account_strings cxn' = account_strings cxn ∧
  soup_queue cxn' = soup_queue cxn ∧ next_soup cxn' = next_soup cxn ∧
  rooms_by_id cxn' = rooms_by_id cxn ∧ live_chats cxn' = live_chats cxn ∧
  chat_id cxn' = chat_id cxn ∧ next_chat cxn' = next_chat cxn ∧
  subscriptions cxn' = subscriptions cxn ∧
  (∀ q, q ≠ p → chats cxn' !! q = chats cxn !! q) ∧
  (∀ chat, chats cxn !! p = Some chat → is_Some (c_messages chat) →
           purple_log cxn' = purple_log cxn ∧
           ∃ chat', chats cxn' !! p = Some chat' ∧ is_Some (c_messages chat')) ∧
  (∀ chat, chats cxn !! p = Some chat → c_messages chat = None →
           chats cxn' = chats cxn).
Proof.
  unfold chat_msg_cb. intros H.
  destruct (json_get_member event "record") as [record|].
  2: { injection H as <-. split_and!; try done. intros chat Hp Hm.
       split; [done|]. by exists chat. }
  destruct (chats cxn !! p) as [chat|] eqn:Hp; [|done]. simpl in H.
  destruct (c_messages chat) as [t|] eqn:Hm.
  - destruct (parse_string record "MessageId") as [id|]; injection H as <-.
    + split_and!; try done.
      * intros q Hq. simpl. by rewrite lookup_insert_ne.
      * intros chat0 [= <-] _. split; [done|]. eexists. split; [apply lookup_insert_eq|].
        simpl. by eexists.
      * intros chat0 [= <-] Hnone. congruence.
    + split_and!; try done.
      * intros chat0 [= <-] _. split; [done|]. exists chat. split; [done|]. rewrite Hm. by eexists.
  - injection H as <-. rewrite chat_deliver_msg_log.
    destruct (delivery_of g_time_val_from_iso8601 now chat record (to_int now));
      split_and!; try done; intros chat0 [= <-] [t Ht]; congruence.
Qed.



(** Lines 60-76, 177-185 and 189-202.  The steps of a catch-up only add
    ids to the table: after any pages that name a next page and any live
    events, as long as no insert has met a key whose node was freed, the
    stored ids are those stored before together with the ids that arrived;
    none is removed before the drain. *)
Theorem buffered_ids_grow (p : Z) (steps : list catch_up_step) (cxn : chime_connection)
    (chat : chime_chat) (t : gmap string JsonNode) (room : chime_room) :
  chats cxn !! p = Some chat →
  c_messages chat = Some t →
  rooms_by_id cxn !! c_room chat = Some room →
  Forall keeps_fetching steps →
  ∃ cxn1 chat1,
    catch_up_run p steps cxn = Some cxn1 ∧
    chats cxn1 !! p = Some chat1 ∧
    (dangling_key_read cxn1 = false →
     ∃ T, c_messages chat1 = Some T ∧
          dom T = dom t ∪ list_to_set (omap (λ a, fst <$> arrival_entry a)
                                         (steps ≫= step_arrivals)) ∧
          dom t ⊆ dom T).
Proof.
  intros Hp Ht Hroom Hsteps.
  destruct (catch_up_run_fetching g_time_val_from_iso8601 g_hash_table_order
              p steps cxn chat t room Hp Ht Hroom Hsteps)
    as (cxn1 & chat1 & Hrun & Hp1 & Ht1 & _).
  exists cxn1, chat1. split; [done|]. split; [done|]. intros _.
  eexists. split; [exact Ht1|]. rewrite buffer_dom. split; [done|].
  apply union_subseteq_l.
Qed.




End Buffering.

(** ** After the drain, and the events stored as a whole *)

Section AfterDrain.

Variable g_time_val_from_iso8601 : string -> option GTimeVal.
Variable g_hash_table_order : gmap string JsonNode -> list (string * JsonNode).
Hypothesis g_hash_table_order_perm : ∀ t, g_hash_table_order t ≡ₚ map_to_list t.

Local Abbreviation parsed_time := (parsed_time g_time_val_from_iso8601).
Local Abbreviation queued_msgs := (queued_msgs g_time_val_from_iso8601 g_hash_table_order).
Local Abbreviation delivery_of_queued := (delivery_of_queued g_time_val_from_iso8601).
Local Abbreviation chime_complete_chat_setup :=
  (chime_complete_chat_setup g_time_val_from_iso8601 g_hash_table_order).
Local Abbreviation chat_msg_cb := (chat_msg_cb g_time_val_from_iso8601).

(** Lines 147-175.  A drain that has run once has nothing left to do: run
    again on its own result, at any clock reading, it shows nothing, writes
    nothing and gives that result back (the table is NULL by then). *)
Theorem chime_complete_chat_setup_idempotent (now now' p : Z) (cxn cxn' : chime_connection) :
  chime_complete_chat_setup now p cxn = Some cxn' →
  chime_complete_chat_setup now' p cxn' = Some cxn'.
Proof.
  intros H.
  destruct (chats cxn !! p) as [chat|] eqn:Hp.
  2: { unfold chime_complete_chat_setup in H. by rewrite Hp in H. }
  destruct (chime_complete_chat_setup_frame g_time_val_from_iso8601 g_hash_table_order
              now p cxn cxn' chat Hp H) as (Hchats & _).
  assert (Hp' : chats cxn' !! p = Some (set_c_messages None chat)).
  { rewrite Hchats. apply lookup_insert_eq. }
  rewrite (chime_complete_chat_setup_spec g_time_val_from_iso8601 g_hash_table_order
             now' p cxn' _ Hp').
  simpl. f_equal. destruct cxn'. unfold set_purple_log, set_chats. simpl in *.
  rewrite app_nil_r. f_equal. by apply insert_id.
Qed.


End AfterDrain.

(** ** Join and leave *)

(** Lines 233-257 with 209-231.  A join of a known room that has no chat
    makes one chat, at a new address and under the next chat id: the room
    points to it, [live_chats] holds it under that id, it starts fetching
    with an empty table, [chat_msg_cb] is subscribed on the channel of the
    room with the chat as data, libpurple is told of the join, and one
    request is queued, without next token and with ["after"] exactly when
    the account holds a non-empty watermark of the room.  No watermark is
    written. *)
Theorem join_creates_session (data : gmap string string) (cxn : chime_connection)
    (roomid : string) (room : chime_room) :
  data !! "RoomId" = Some roomid →
  rooms_by_id cxn !! roomid = Some room →
  room_chat room = None →
  ∃ cxn',
    chime_purple_join_chat data cxn = Some cxn' ∧
    rooms_by_id cxn' = <[roomid := set_room_chat (Some (next_chat cxn)) room]> (rooms_by_id cxn) ∧
    chats cxn' =
      <[next_chat cxn :=
          {| c_room := roomid;
             c_conv := {| conv_chat_id := to_int (chat_id cxn + 1);
                          conv_name := data !! "Name" |};
             c_msgs_msg := Some (next_soup cxn); c_members_msg := None;
             c_got_members := false; c_got_msgs := false;
             c_messages := Some ∅; c_members := None |}]> (chats cxn) ∧
    live_chats cxn' =
      <[GUINT_TO_POINTER (to_int (chat_id cxn + 1)) := next_chat cxn]> (live_chats cxn) ∧
    chat_id cxn' = to_int (chat_id cxn + 1) ∧
    subscriptions cxn' =
      subscriptions cxn ++
      [{| sub_channel := room_channel room; sub_cb := chat_msg_cb_ptr;
          sub_cb_data := ChatData (next_chat cxn) |}] ∧
    soup_queue cxn' =
      <[next_soup cxn :=
          {| req_path := "/rooms/" +:+ room_id room +:+ "/messages";
             req_query :=
               ("max-results", "50")
                 :: fetch_opts (purple_account_get_string cxn (last_msgs_key (room_id room)))
                      None;
             req_cb_data := next_chat cxn |}]> (soup_queue cxn) ∧
    purple_log cxn' =
      purple_log cxn ++ [serv_got_joined_chat (to_int (chat_id cxn + 1)) (data !! "Name")] ∧
    account_strings cxn' = account_strings cxn.
Proof.
  intros Hid Hroom Hchat. unfold chime_purple_join_chat.
  rewrite Hid. simpl. rewrite Hroom, Hchat.
  unfold fetch_chat_messages. simpl. repeat (rewrite lookup_insert_eq; simpl).
  eexists. split; [reflexivity|]. simpl. split_and!; try done.
  by rewrite insert_insert_eq.
Qed.

(** Lines 233-257.  Join is idempotent: a join that returns leaves a
    connection on which the same join changes nothing. *)
Theorem join_idempotent (data : gmap string string) (cxn cxn' : chime_connection) :
  chime_purple_join_chat data cxn = Some cxn' →
  chime_purple_join_chat data cxn' = Some cxn'.
Proof.
  unfold chime_purple_join_chat. intros H.
  destruct (data !! "RoomId") as [roomid|]; [|done]. simpl in *.
  destruct (rooms_by_id cxn !! roomid) as [room|] eqn:Hroom.
  2: { injection H as <-. by rewrite Hroom. }
  destruct (room_chat room) as [q|] eqn:Hq.
  { injection H as <-. by rewrite Hroom, Hq. }
  unfold fetch_chat_messages in H. simpl in H.
  repeat (rewrite lookup_insert_eq in H; simpl in H).
  injection H as <-. simpl. by rewrite lookup_insert_eq.
Qed.

(** Lines 80-108 and 259-265.  A leave that returns has found the chat of
    the id, freed it and cleared the chat of its room; it has told
    libpurple that the chat was left and nothing else; it has withdrawn the
    history request of the chat, if one was out; and it has written no
    account string and taken no chat id. *)
Theorem leave_detaches_chat (id : Z) (cxn cxn' : chime_connection) :
  chime_purple_chat_leave id cxn = Some cxn' →
  ∃ p chat room q chat_q,
    live_chats cxn !! GUINT_TO_POINTER id = Some p ∧
    chats cxn !! p = Some chat ∧
    rooms_by_id cxn !! c_room chat = Some room ∧
    room_chat room = Some q ∧ chats cxn !! q = Some chat_q ∧
    chats cxn' = delete p (chats cxn) ∧
    rooms_by_id cxn' = <[c_room chat := set_room_chat None room]> (rooms_by_id cxn) ∧
    purple_log cxn' = purple_log cxn ++ [serv_got_chat_left (conv_chat_id (c_conv chat_q))] ∧
    (∀ m, c_msgs_msg chat = Some m → soup_queue cxn' !! m = None) ∧
    account_strings cxn' = account_strings cxn ∧
    chat_id cxn' = chat_id cxn ∧ next_soup cxn' = next_soup cxn.
Proof.
  unfold chime_purple_chat_leave, chime_destroy_chat. intros H.
  destruct (live_chats cxn !! GUINT_TO_POINTER id) as [p|]; [|done]. simpl in H.
  destruct (chats cxn !! p) as [chat|] eqn:Hp; [|done]. simpl in H.
  destruct (rooms_by_id cxn !! c_room chat) as [room|] eqn:Hroom; [|done]. simpl in H.
  destruct (room_chat room) as [q|] eqn:Hq; [|done]. simpl in H.
  destruct (chats cxn !! q) as [chat_q|] eqn:Hcq; [|done]. simpl in H.
  injection H as <-. exists p, chat, room, q, chat_q.
  destruct (c_msgs_msg chat) as [m|], (c_members_msg chat) as [m'|]; simpl;
    split_and!; try done; intros ? [= <-].
  - destruct (decide (m' = m)) as [->|]; [by rewrite lookup_delete_eq|].
    by rewrite lookup_delete_ne, lookup_delete_eq.
  - by rewrite lookup_delete_eq.
Qed.

(** Lines 98 and 259-265.  The entry of [live_chats] outlives the leave
    (line 98 removes the key made of the address of the room's id string,
    not the key of the chat id): after the leave the id still maps to the
    chat, which is freed, so a second leave of the same id hands the freed
    chat to [chime_destroy_chat] and faults.  A leave of an id that has no
    entry hands it NULL and faults as well. *)
Theorem second_leave_faults (id p : Z) (cxn cxn' : chime_connection) (chat : chime_chat)
    (room : chime_room) :
  live_chats cxn !! GUINT_TO_POINTER id = Some p →
  chats cxn !! p = Some chat →
  rooms_by_id cxn !! c_room chat = Some room →
  GUINT_TO_POINTER id ≠ GUINT_TO_POINTER (room_id_addr room) →
  chime_purple_chat_leave id cxn = Some cxn' →
  (live_chats cxn' !! GUINT_TO_POINTER id = Some p ∧
   chats cxn' !! p = None ∧
   chime_purple_chat_leave id cxn' = None) ∧
  (∀ id0 cxn0, live_chats cxn0 !! GUINT_TO_POINTER id0 = None →
               chime_purple_chat_leave id0 cxn0 = None).
Proof.
  intros Hl Hp Hroom Hne H. split.
  - unfold chime_purple_chat_leave in H. rewrite Hl in H. simpl in H.
    pose proof (chime_destroy_chat_keeps_live_chats p (GUINT_TO_POINTER id) cxn cxn' H) as Hkeep.
    apply chime_destroy_chat_result in H as (chat0 & room0 & Hp0 & _ & _ & _ & Hchats & _).
    assert (Hl' : live_chats cxn' !! GUINT_TO_POINTER id = Some p).
    { rewrite Hkeep; [exact Hl|]. intros chat1 room1 Hp1 Hroom1. congruence. }
    assert (Hp' : chats cxn' !! p = None) by (rewrite Hchats; apply lookup_delete_eq).
    split_and!; [exact Hl' | exact Hp' |].
    unfold chime_purple_chat_leave. rewrite Hl'. simpl.
    unfold chime_destroy_chat. by rewrite Hp'.
  - intros id0 cxn0 Hnone. unfold chime_purple_chat_leave. by rewrite Hnone.
Qed.

(** Lines 80-108 with 233-257.  After a leave the room can be joined again:
    the join finds the room without chat and makes a new chat for it, at a
    new address and fetching with an empty table. *)
Theorem rejoin_after_leave (id p : Z) (data : gmap string string)
    (cxn cxn' : chime_connection) (chat : chime_chat) :
  live_chats cxn !! GUINT_TO_POINTER id = Some p →
  chats cxn !! p = Some chat →
  data !! "RoomId" = Some (c_room chat) →
  chime_purple_chat_leave id cxn = Some cxn' →
  ∃ cxn'' room' chat',
    chime_purple_join_chat data cxn' = Some cxn'' ∧
    rooms_by_id cxn'' !! c_room chat = Some room' ∧
    room_chat room' = Some (next_chat cxn') ∧
    chats cxn'' !! next_chat cxn' = Some chat' ∧
    c_room chat' = c_room chat ∧ c_messages chat' = Some ∅ ∧
    chat_id cxn'' = to_int (chat_id cxn' + 1).
Proof.
  intros Hl Hp Hid H.
  unfold chime_purple_chat_leave in H. rewrite Hl in H. simpl in H.
  apply chime_destroy_chat_result in H
    as (chat0 & room & Hp0 & Hroom & _ & _ & _ & Hrooms & _).
  assert (chat0 = chat) as -> by congruence.
  assert (Hroom' : rooms_by_id cxn' !! c_room chat = Some (set_room_chat None room)).
  { rewrite Hrooms. apply lookup_insert_eq. }
  unfold chime_purple_join_chat. rewrite Hid. simpl. rewrite Hroom'. simpl.
  unfold fetch_chat_messages. simpl. repeat (rewrite lookup_insert_eq; simpl).
  eexists _, _, _. split; [reflexivity|]. simpl.
  rewrite !lookup_insert_eq. split_and!; done.
Qed.

(** Lines 233-265.  A leave of the id that a join has just given finds the
    chat of that join: it returns, frees the chat, clears the chat of the
    room, withdraws the first history request before any page is answered,
    shows nothing and writes no watermark. *)
Theorem leave_after_join (data : gmap string string) (cxn : chime_connection)
    (roomid : string) (room : chime_room) :
  data !! "RoomId" = Some roomid →
  rooms_by_id cxn !! roomid = Some room →
  room_chat room = None →
  ∃ cxn' cxn'',
    chime_purple_join_chat data cxn = Some cxn' ∧
    chime_purple_chat_leave (chat_id cxn') cxn' = Some cxn'' ∧
    chats cxn'' !! next_chat cxn = None ∧
    rooms_by_id cxn'' !! roomid = Some room ∧
    soup_queue cxn'' !! next_soup cxn = None ∧
    account_strings cxn'' = account_strings cxn ∧
    purple_log cxn'' =
      purple_log cxn ++
      [serv_got_joined_chat (chat_id cxn') (data !! "Name"); serv_got_chat_left (chat_id cxn')].
Proof.
  intros Hid Hroom Hchat. unfold chime_purple_join_chat.
  rewrite Hid. simpl. rewrite Hroom, Hchat.
  unfold fetch_chat_messages. simpl. repeat (rewrite lookup_insert_eq; simpl).
  eexists _, _. split; [reflexivity|].
  unfold chime_purple_chat_leave, chime_destroy_chat. simpl.
  repeat (rewrite lookup_insert_eq; simpl).
  split; [reflexivity|]. simpl. split_and!.
  - apply lookup_delete_eq.
  - rewrite lookup_insert_eq. f_equal. destruct room. simpl in *. by subst.
  - apply lookup_delete_eq.
  - done.
  - by rewrite <- app_assoc.
Qed.

(** ** The watermark from one catch-up to the next *)

Section Watermark.

Variable g_time_val_from_iso8601 : string -> option GTimeVal.
Variable g_hash_table_order : gmap string JsonNode -> list (string * JsonNode).
Hypothesis g_hash_table_order_perm : ∀ t, g_hash_table_order t ≡ₚ map_to_list t.

Local Abbreviation queued_msgs := (queued_msgs g_time_val_from_iso8601 g_hash_table_order).
Local Abbreviation chime_complete_chat_setup :=
  (chime_complete_chat_setup g_time_val_from_iso8601 g_hash_table_order).

(** Lines 163-171 with 215-221.  The CreatedOn string that a drain writes as
    watermark is, when it is not empty, the ["after"] field of every history
    request made later for a room of that id, first page or not, as long as
    the account strings are left as the drain left them. *)
Theorem watermark_sent_by_next_catch_up (now p : Z) (cxn : chime_connection)
    (chat : chime_chat) (t : gmap string JsonNode) (room : chime_room)
    (ms : msg_sort) (tm_str : string) :
  chats cxn !! p = Some chat →
  c_messages chat = Some t →
  rooms_by_id cxn !! c_room chat = Some room →
  last (queued_msgs (Some t)) = Some ms →
  parse_string (node ms) "CreatedOn" = Some tm_str →
  tm_str ≠ "" →
  ∃ cxn',
    chime_complete_chat_setup now p cxn = Some cxn' ∧
    ∀ later q chat_q room_q next_token,
      account_strings later = account_strings cxn' →
      chats later !! q = Some chat_q →
      rooms_by_id later !! c_room chat_q = Some room_q →
      room_id room_q = room_id room →
      ∃ cxn'' req,
        fetch_chat_messages q next_token later = Some cxn'' ∧
        soup_queue cxn'' !! next_soup later = Some req ∧
        req_query req =
          ("max-results", "50") :: ("after", tm_str) ::
          match next_token with
          | Some tok => [("next-token", tok)]
          | None => []
          end.
Proof.
  intros Hp Ht Hroom Hlast Hs Hne.
  destruct (drain_watermark g_time_val_from_iso8601 g_hash_table_order
              g_hash_table_order_perm now p cxn chat t room Hp Ht Hroom)
    as (cxn' & Hrun & _ & Hw).
  rewrite Hlast in Hw. destruct Hw as (s & Hs' & _ & Hacc).
  assert (s = tm_str) as -> by congruence.
  exists cxn'. split; [done|].
  intros later q chat_q room_q next_token Hlater Hq Hrq Hrid.
  unfold fetch_chat_messages. rewrite Hq. simpl. rewrite Hrq. simpl.
  eexists _, _. split; [reflexivity|]. split; [simpl; apply lookup_insert_eq|].
  simpl. unfold purple_account_get_string.
  rewrite Hlater, Hacc, Hrid, lookup_insert_eq. unfold fetch_opts.
  by destruct (decide (tm_str = "")).
Qed.

End Watermark.

(** ** The further properties at the data of the examples *)

(** A third record of the time of [msg_a] goes in front of it. *)
Lemma g_list_insert_sorted_position_witness :
  StronglySorted ms_le [ms_b; ms_a] ∧
  g_list_insert_sorted [ms_b; ms_a] ms_a_again compare_ms = [ms_b; ms_a_again; ms_a].
Proof.
  assert (H : StronglySorted ms_le [ms_b; ms_a]).
  { repeat constructor. }
  split; [exact H|].
  rewrite (g_list_insert_sorted_position [ms_b; ms_a] ms_a_again H).
  vm_compute. reflexivity.
Defined.

Lemma table_order_rev_perm (t : gmap string JsonNode) : table_order_rev t ≡ₚ map_to_list t.
Proof. unfold table_order_rev. apply reverse_Permutation. Qed.

(** The table of [msg_a] and [msg_b], visited forwards and backwards. *)
Lemma queued_msgs_order_independent_witness :
  queued_msgs iso8601_utc table_order (Some table_ab)
    = queued_msgs iso8601_utc table_order_rev (Some table_ab).
Proof.
  apply (queued_msgs_order_independent iso8601_utc table_order table_order_rev
           table_order_perm table_order_rev_perm table_ab).
  intros k1 k2 v1 v2 tv H1 H2 H3 H4.
  apply elem_of_map_to_list in H1, H2.
  assert (Hl : map_to_list table_ab = [("a", msg_a); ("b", msg_b)]) by (vm_compute; reflexivity).
  rewrite Hl in H1, H2.
  rewrite !elem_of_cons, elem_of_nil in H1, H2.
  destruct H1 as [H1|[H1|[]]], H2 as [H2|[H2|[]]];
    injection H1 as -> ->; injection H2 as -> ->; try reflexivity;
    vm_compute in H3, H4; congruence.
Defined.

(** The drain of the fetching chat, at two clock readings. *)
Lemma drain_shows_created_on_seconds_witness :
  chats cxn_fetching !! 4096 = Some chat_fetching ∧
  c_messages chat_fetching = Some table_abcd ∧
  rooms_by_id cxn_fetching !! c_room chat_fetching = Some room_r1_joined ∧
  chime_complete_chat_setup iso8601_utc table_order 1493633000 4096 cxn_fetching
    = chime_complete_chat_setup iso8601_utc table_order 0 4096 cxn_fetching.
Proof.
  assert (H1 : chats cxn_fetching !! 4096 = Some chat_fetching) by (vm_compute; reflexivity).
  assert (H2 : c_messages chat_fetching = Some table_abcd) by reflexivity.
  assert (H3 : rooms_by_id cxn_fetching !! c_room chat_fetching = Some room_r1_joined)
    by (vm_compute; reflexivity).
  destruct (drain_shows_created_on_seconds iso8601_utc table_order table_order_perm
              1493633000 4096 cxn_fetching chat_fetching table_abcd room_r1_joined H1 H2 H3)
    as (cxn' & Hrun & _ & _ & Hany).
  split_and!; [exact H1 | exact H2 | exact H3 |].
  rewrite Hrun. symmetry. apply Hany.
Defined.

(** A live event for the drained chat. *)
Lemma live_message_shown_with_arrival_time_witness :
  chats cxn_drained !! 4096 = Some (set_c_messages None chat_fetching) ∧
  json_get_member (live_event msg_e) "record" = Some msg_e ∧
  parse_string msg_e "Content" = Some "live" ∧
  to_int 1493633050 ≠ 0 ∧
  chat_msg_cb iso8601_utc 1493633050 4096 (live_event msg_e) cxn_drained =
    Some (set_purple_log
            (λ log, log ++ [serv_got_chat_in 1 "someone" "live" 1493633050 msg_e]) cxn_drained).
Proof.
  assert (H1 : chats cxn_drained !! 4096 = Some (set_c_messages None chat_fetching))
    by (vm_compute; reflexivity).
  assert (H2 : json_get_member (live_event msg_e) "record" = Some msg_e) by reflexivity.
  assert (H3 : parse_string msg_e "Content" = Some "live") by reflexivity.
  assert (H4 : to_int 1493633050 ≠ 0) by (vm_compute; discriminate).
  split_and!; [exact H1 | exact H2 | exact H3 | exact H4 |].
  apply (live_message_shown_with_arrival_time iso8601_utc 1493633050 4096 cxn_drained
           (set_c_messages None chat_fetching) (live_event msg_e) msg_e "live"
           H1 eq_refl H2 H3 H4).
Defined.

(** A live event for the fetching chat. *)
Lemma chat_msg_cb_frame_witness :
  chat_msg_cb iso8601_utc 1493632950 4096 (live_event msg_e) cxn_fetching = Some cxn_fetching_e ∧
  account_strings cxn_fetching_e = account_strings cxn_fetching ∧
  purple_log cxn_fetching_e = purple_log cxn_fetching.
Proof.
  assert (H : chat_msg_cb iso8601_utc 1493632950 4096 (live_event msg_e) cxn_fetching
              = Some cxn_fetching_e) by (vm_compute; reflexivity).
  destruct (chat_msg_cb_frame iso8601_utc 1493632950 4096 (live_event msg_e)
              cxn_fetching cxn_fetching_e H) as (Hacc & _ & _ & _ & _ & _ & _ & _ & _ & Hlog & _).
  split_and!; [exact H | exact Hacc |].
  apply (Hlog chat_fetching); [vm_compute; reflexivity | by eexists].
Defined.


(** The steps of the catch-up of the fetching chat bring the id ["e"]. *)
Lemma buffered_ids_grow_witness :
  chats cxn_fetching !! 4096 = Some chat_fetching ∧
  c_messages chat_fetching = Some table_abcd ∧
  rooms_by_id cxn_fetching !! c_room chat_fetching = Some room_r1_joined ∧
  Forall keeps_fetching catch_up_steps ∧
  ∃ cxn1 chat1 T,
    catch_up_run iso8601_utc table_order 4096 catch_up_steps cxn_fetching = Some cxn1 ∧
    chats cxn1 !! 4096 = Some chat1 ∧
    dangling_key_read cxn1 = false ∧
    c_messages chat1 = Some T ∧
    dom T = dom table_abcd ∪ {["e"]}.
Proof.
  assert (H1 : chats cxn_fetching !! 4096 = Some chat_fetching) by (vm_compute; reflexivity).
  assert (H2 : c_messages chat_fetching = Some table_abcd) by reflexivity.
  assert (H3 : rooms_by_id cxn_fetching !! c_room chat_fetching = Some room_r1_joined)
    by (vm_compute; reflexivity).
  assert (H4 : Forall keeps_fetching catch_up_steps).
  { repeat constructor. by eexists. }
  destruct (buffered_ids_grow iso8601_utc table_order 4096 catch_up_steps
              cxn_fetching chat_fetching table_abcd room_r1_joined H1 H2 H3 H4)
    as (cxn1 & chat1 & Hrun1 & Hp1 & Hguard).
  assert (Hflag : ∀ c,
             catch_up_run iso8601_utc table_order 4096 catch_up_steps cxn_fetching = Some c →
             dangling_key_read c = false)
    by (vm_compute; intros c [= <-]; reflexivity).
  destruct (Hguard (Hflag cxn1 Hrun1)) as (T & HT & Hdom & _).
  split_and!; [exact H1 | exact H2 | exact H3 | exact H4 |].
  exists cxn1, chat1, T.
  split_and!; [exact Hrun1 | exact Hp1 | exact (Hflag cxn1 Hrun1) | exact HT |].
  by rewrite Hdom.
Defined.




(** The drain of the fetching chat, run again on its result. *)
Lemma chime_complete_chat_setup_idempotent_witness :
  chime_complete_chat_setup iso8601_utc table_order 1493633000 4096 cxn_fetching
    = Some cxn_drained ∧
  chime_complete_chat_setup iso8601_utc table_order 1493633060 4096 cxn_drained
    = Some cxn_drained.
Proof.
  assert (H : chime_complete_chat_setup iso8601_utc table_order 1493633000 4096 cxn_fetching
              = Some cxn_drained) by (vm_compute; reflexivity).
  split; [exact H|].
  apply (chime_complete_chat_setup_idempotent iso8601_utc table_order
           1493633000 1493633060 4096 cxn_fetching cxn_drained H).
Defined.


(** The first join of room r1. *)
Lemma join_creates_session_witness :
  join_r1 !! "RoomId" = Some "r1" ∧
  rooms_by_id cxn0 !! "r1" = Some room_r1 ∧
  room_chat room_r1 = None ∧
  ∃ cxn',
    chime_purple_join_chat join_r1 cxn0 = Some cxn' ∧
    soup_queue cxn' !! 0 =
      Some {| req_path := "/rooms/r1/messages"; req_query := [("max-results", "50")];
              req_cb_data := 4096 |}.
Proof.
  assert (H1 : join_r1 !! "RoomId" = Some "r1") by (vm_compute; reflexivity).
  assert (H2 : rooms_by_id cxn0 !! "r1" = Some room_r1) by (vm_compute; reflexivity).
  assert (H3 : room_chat room_r1 = None) by reflexivity.
  destruct (join_creates_session join_r1 cxn0 "r1" room_r1 H1 H2 H3)
    as (cxn' & Hrun & _ & _ & _ & _ & _ & Hq & _).
  split_and!; [exact H1 | exact H2 | exact H3 |].
  exists cxn'. split; [exact Hrun|]. rewrite Hq. vm_compute. reflexivity.
Defined.

(** The join of room r1, and the same join once more. *)
Lemma join_idempotent_witness :
  chime_purple_join_chat join_r1 cxn0 = Some cxn_joined ∧
  chime_purple_join_chat join_r1 cxn_joined = Some cxn_joined.
Proof.
  assert (H : chime_purple_join_chat join_r1 cxn0 = Some cxn_joined)
    by (vm_compute; reflexivity).
  split; [exact H|]. apply (join_idempotent join_r1 cxn0 cxn_joined H).
Defined.

(** The leave of chat 1 after its join. *)
Lemma leave_detaches_chat_witness :
  chime_purple_chat_leave 1 cxn_joined = Some cxn_left ∧
  account_strings cxn_left = account_strings cxn_joined ∧
  chats cxn_left !! 4096 = None.
Proof.
  assert (H : chime_purple_chat_leave 1 cxn_joined = Some cxn_left)
    by (vm_compute; reflexivity).
  destruct (leave_detaches_chat 1 cxn_joined cxn_left H)
    as (p & chat & room & q & chat_q & Hl & _ & _ & _ & _ & Hchats & _ & _ & _ & Hacc & _).
  split_and!; [exact H | exact Hacc |].
  assert (p = 4096) as ->.
  { assert (Hl' : live_chats cxn_joined !! GUINT_TO_POINTER 1 = Some 4096)
      by (vm_compute; reflexivity).
    congruence. }
  rewrite Hchats. apply lookup_delete_eq.
Defined.

(** The leave of chat 1, twice. *)
Lemma second_leave_faults_witness :
  live_chats cxn_joined !! GUINT_TO_POINTER 1 = Some 4096 ∧
  chats cxn_joined !! 4096 = Some chat_joined ∧
  rooms_by_id cxn_joined !! c_room chat_joined = Some room_r1_joined ∧
  GUINT_TO_POINTER 1 ≠ GUINT_TO_POINTER (room_id_addr room_r1_joined) ∧
  chime_purple_chat_leave 1 cxn_joined = Some cxn_left ∧
  live_chats cxn_left !! GUINT_TO_POINTER 1 = Some 4096 ∧
  chats cxn_left !! 4096 = None ∧
  chime_purple_chat_leave 1 cxn_left = None.
Proof.
  assert (H1 : live_chats cxn_joined !! GUINT_TO_POINTER 1 = Some 4096)
    by (vm_compute; reflexivity).
  assert (H2 : chats cxn_joined !! 4096 = Some chat_joined) by (vm_compute; reflexivity).
  assert (H3 : rooms_by_id cxn_joined !! c_room chat_joined = Some room_r1_joined)
    by (vm_compute; reflexivity).
  assert (H4 : GUINT_TO_POINTER 1 ≠ GUINT_TO_POINTER (room_id_addr room_r1_joined))
    by (vm_compute; discriminate).
  assert (H5 : chime_purple_chat_leave 1 cxn_joined = Some cxn_left)
    by (vm_compute; reflexivity).
  split_and!; [exact H1 | exact H2 | exact H3 | exact H4 | exact H5 | | |];
    apply (proj1 (second_leave_faults 1 4096 cxn_joined cxn_left chat_joined room_r1_joined
                    H1 H2 H3 H4 H5)).
Defined.

(** The join of room r1 after its chat was left. *)
Lemma rejoin_after_leave_witness :
  live_chats cxn_joined !! GUINT_TO_POINTER 1 = Some 4096 ∧
  chats cxn_joined !! 4096 = Some chat_joined ∧
  join_r1 !! "RoomId" = Some (c_room chat_joined) ∧
  chime_purple_chat_leave 1 cxn_joined = Some cxn_left ∧
  ∃ cxn'', chime_purple_join_chat join_r1 cxn_left = Some cxn'' ∧ chat_id cxn'' = 2.
Proof.
  assert (H1 : live_chats cxn_joined !! GUINT_TO_POINTER 1 = Some 4096)
    by (vm_compute; reflexivity).
  assert (H2 : chats cxn_joined !! 4096 = Some chat_joined) by (vm_compute; reflexivity).
  assert (H3 : join_r1 !! "RoomId" = Some (c_room chat_joined)) by (vm_compute; reflexivity).
  assert (H4 : chime_purple_chat_leave 1 cxn_joined = Some cxn_left)
    by (vm_compute; reflexivity).
  destruct (rejoin_after_leave 1 4096 join_r1 cxn_joined cxn_left chat_joined H1 H2 H3 H4)
    as (cxn'' & room' & chat' & Hrun & _ & _ & _ & _ & _ & Hid).
  split_and!; [exact H1 | exact H2 | exact H3 | exact H4 |].
  exists cxn''. split; [exact Hrun|]. rewrite Hid. vm_compute. reflexivity.
Defined.

(** The join of room r1 and the leave of the chat it made. *)
Lemma leave_after_join_witness :
  join_r1 !! "RoomId" = Some "r1" ∧
  rooms_by_id cxn0 !! "r1" = Some room_r1 ∧
  room_chat room_r1 = None ∧
  ∃ cxn' cxn'',
    chime_purple_join_chat join_r1 cxn0 = Some cxn' ∧
    chime_purple_chat_leave (chat_id cxn') cxn' = Some cxn'' ∧
    rooms_by_id cxn'' !! "r1" = Some room_r1.
Proof.
  assert (H1 : join_r1 !! "RoomId" = Some "r1") by (vm_compute; reflexivity).
  assert (H2 : rooms_by_id cxn0 !! "r1" = Some room_r1) by (vm_compute; reflexivity).
  assert (H3 : room_chat room_r1 = None) by reflexivity.
  destruct (leave_after_join join_r1 cxn0 "r1" room_r1 H1 H2 H3)
    as (cxn' & cxn'' & Hjoin & Hleave & _ & Hroom & _).
  split_and!; [exact H1 | exact H2 | exact H3 |].
  exists cxn', cxn''. split_and!; [exact Hjoin | exact Hleave | exact Hroom].
Defined.

(** The watermark of the drain of the fetching chat, in a later request. *)
Lemma watermark_sent_by_next_catch_up_witness :
  chats cxn_fetching !! 4096 = Some chat_fetching ∧
  c_messages chat_fetching = Some table_abcd ∧
  rooms_by_id cxn_fetching !! c_room chat_fetching = Some room_r1_joined ∧
  last (queued_msgs iso8601_utc table_order (Some table_abcd)) = Some ms_c ∧
  parse_string (node ms_c) "CreatedOn" = Some "2017-05-01T10:00:20.000Z" ∧
  "2017-05-01T10:00:20.000Z" ≠ "" ∧
  ∃ cxn'' req,
    fetch_chat_messages 4096 None cxn_drained = Some cxn'' ∧
    soup_queue cxn'' !! next_soup cxn_drained = Some req ∧
    req_query req = [("max-results", "50"); ("after", "2017-05-01T10:00:20.000Z")].
Proof.
  assert (H1 : chats cxn_fetching !! 4096 = Some chat_fetching) by (vm_compute; reflexivity).
  assert (H2 : c_messages chat_fetching = Some table_abcd) by reflexivity.
  assert (H3 : rooms_by_id cxn_fetching !! c_room chat_fetching = Some room_r1_joined)
    by (vm_compute; reflexivity).
  assert (H4 : last (queued_msgs iso8601_utc table_order (Some table_abcd)) = Some ms_c)
    by (vm_compute; reflexivity).
  assert (H5 : parse_string (node ms_c) "CreatedOn" = Some "2017-05-01T10:00:20.000Z")
    by reflexivity.
  assert (H6 : "2017-05-01T10:00:20.000Z" ≠ "") by discriminate.
  destruct (watermark_sent_by_next_catch_up iso8601_utc table_order table_order_perm
              1493633000 4096 cxn_fetching chat_fetching table_abcd room_r1_joined ms_c
              "2017-05-01T10:00:20.000Z" H1 H2 H3 H4 H5 H6)
    as (cxn' & Hrun & Hlater).
  split_and!; [exact H1 | exact H2 | exact H3 | exact H4 | exact H5 | exact H6 |].
  assert (Hd : cxn' = cxn_drained).
  { assert (Hc : chime_complete_chat_setup iso8601_utc table_order 1493633000 4096 cxn_fetching
                 = Some cxn_drained) by (vm_compute; reflexivity).
    congruence. }
  subst cxn'.
  apply (Hlater cxn_drained 4096 (set_c_messages None chat_fetching) room_r1_joined None);
    vm_compute; reflexivity.
Defined.
